(** * Required longitudinal acceleration (ALongReq) of commonroad-crime

    A shallow embedding of [ALongReq.compute]
    (src/commonroad_crime/measure/acceleration/a_long_req.py) and of the
    Python float semantics it relies on.  Python floats are IEEE binary64
    numbers: they are modelled by Rocq's primitive floats, so that NaN, the
    infinities, signed zeros and rounding behave as in the program. *)

From Stdlib Require Import ZArith Bool List Lia Floats.
Import ListNotations.

Local Open Scope float_scope.

(** ** Python exceptions and outcomes *)

Inductive exn : Type :=
| ZeroDivisionError
| OverflowError
| ValueError
| TypeError
| IndexError
| AttributeError.

Inductive outcome (A : Type) : Type :=
| Ret (a : A)
| Raise (e : exn).

Arguments Ret {A} a.
Arguments Raise {A} e.

(** ** Python float operations

    Only the operations [compute] uses.  [+], [-], [*] and unary [-] on
    floats never raise and are the IEEE operations. *)
Module PyFloat.

(** Truth value of an object that is [None] or a float, as tested by
    [not x]: [None], [0.0] and [-0.0] are false, everything else (NaN
    included) is true. *)
Definition truthy (o : option float) : bool :=
  match o with
  | None => false
  | Some x => negb (x =? 0)
  end.

(** [x ** 2] on a float (CPython's [float_pow] with exponent 2): NaN,
    infinities and zeros are answered before libm is called, and a finite
    base whose square is out of range raises [OverflowError].  libm's
    [pow(x, 2.0)] is taken as the correctly rounded square. *)
Definition pow2 (x : float) : outcome float :=
  if is_nan x then Ret x
  else if is_infinity x then Ret infinity
  else
    let r := x * x in
    if is_infinity r then Raise OverflowError else Ret r.

(** [x / y]: a zero divisor raises, otherwise IEEE division. *)
Definition div (x y : float) : outcome float :=
  if y =? 0 then Raise ZeroDivisionError else Ret (x / y).

(** [math.sqrt(x)]: [ValueError] on negative input (also on -inf), the
    IEEE square root otherwise; NaN is passed through. *)
Definition math_sqrt (x : float) : outcome float :=
  if x <? 0 then Raise ValueError else Ret (sqrt x).

(** [min(a, b)] of the builtins: the first argument is kept unless the
    second compares strictly smaller. *)
Definition min (a b : float) : float :=
  if b <? a then b else a.

(** [a > 0] *)
Definition gt0 (a : float) : bool := 0 <? a.

End PyFloat.

(** Sequencing of operations that may raise. *)
Definition obind {A B : Type} (o : outcome A) (k : A -> outcome B) : outcome B :=
  match o with
  | Ret a => k a
  | Raise e => Raise e
  end.

Notation "'let?' x ':=' o 'in' k" := (obind o (fun x => k))
  (at level 10, x name, o at level 100, k at level 200).

(** ** What the runtime provides and src/ does not contain

    [libm_cos] is the C library's cosine on finite arguments, and
    [int_round] is [commonroad_crime.utility.general.int_round], the rounding
    helper [compute] calls with 2 decimal places.  Neither is in src/: both
    are parameters of the development. *)
Class Runtime : Type := {
  libm_cos : float -> float;
  int_round : float -> Z -> outcome float
}.

(** [math.cos(x)] where [x] is [None] or a float: [None] is a
    [TypeError], an infinite argument a [ValueError]; NaN is passed to
    libm. *)
Definition math_cos `{Runtime} (x : option float) : outcome float :=
  match x with
  | None => Raise TypeError
  | Some x => if is_infinity x then Raise ValueError else Ret (libm_cos x)
  end.

(** ** Data model *)

(** A state of a vehicle at a time step, with the attributes [compute]
    reads. *)
Record State : Type := {
  position : float * float;
  velocity : float;
  velocity_y : float;
  acceleration : float;
  acceleration_y : float
}.

(** The scenario and the collaborators of the measure, as [compute] sees
    them.  Vehicles, lanelets and time steps are identified by integers. *)
Record Scenario : Type := {
  ego_id : Z;
  (** [vehicle.state_at_time(time_step)], [None] when there is no state *)
  state_at_time : Z -> Z -> option State;
  (** [lanelet_network.find_lanelet_by_position([p])[0]]: the lanelets
      that contain the position [p] *)
  find_lanelet_by_position : float * float -> list Z;
  (** [utils_sol.compute_lanelet_width_orientation(lanelet, p)]: width and
      orientation of the lanelet at [p], both [None] outside the projection
      domain *)
  compute_lanelet_width_orientation :
    Z -> float * float -> option float * option float;
  (** verdict of the same-lanelet exception check for a vehicle and a time
      step *)
  same_lanelet_exception : Z -> Z -> bool;
  (** [HW.compute(vehicle_id, time_step, verbose)] of the headway measure
      [self._hw_object], a separate object with a value of its own *)
  HW_compute : Z -> Z -> bool -> outcome float
}.

Record Configuration : Type := {
  acceleration_mode : Z
}.

(** What is handed to [utils_log.print_and_log_info]. *)
Inductive log_entry : Type :=
| LogNotValid (vehicle_id time_step : Z)
| LogException (expected_value : float)
| LogRelativeVelocity (v_rel : float)
| LogMeasure (v : option float).

(** The measure object: [self.value] ([None] until it is first assigned),
    the number of assignments made to it so far, and the messages logged,
    each with the [verbose] flag it was logged with. *)
Record Measure : Type := {
  value : option float;
  writes : nat;
  log : list (bool * log_entry)
}.

(** ** Computations on the measure object: state and exceptions *)

Definition M (A : Type) : Type := Measure -> outcome A * Measure.

Definition ret {A : Type} (a : A) : M A := fun m => (Ret a, m).

Definition bind {A B : Type} (c : M A) (k : A -> M B) : M B :=
  fun m =>
    match c m with
    | (Ret a, m') => k a m'
    | (Raise e, m') => (Raise e, m')
    end.

Definition lift {A : Type} (o : outcome A) : M A := fun m => (o, m).

Notation "x <- c ;; k" := (bind c (fun x => k))
  (at level 61, c at next level, right associativity).
Notation "' pat <- c ;; k" := (bind c (fun x => match x with pat => k end))
  (at level 61, pat pattern, c at next level, right associativity).
Notation "c ;;; k" := (bind c (fun _ => k))
  (at level 61, right associativity).

(** [self.value = v] *)
Definition set_value (v : float) : M unit :=
  fun m => (Ret tt, {| value := Some v; writes := S (writes m); log := log m |}).

(** [self.value] read *)
Definition get_value : M (option float) :=
  fun m => (Ret (value m), m).

(** The measure object with one more message in the log. *)
Definition logged (e : log_entry) (verbose : bool) (m : Measure) : Measure :=
  {| value := value m; writes := writes m; log := log m ++ [(verbose, e)] |}.

(** [utils_log.print_and_log_info(logger, msg, verbose)] *)
Definition print_and_log_info (e : log_entry) (verbose : bool) : M unit :=
  fun m => (Ret tt, logged e verbose m).

(** ** Helpers of the base class

    [CriMeBase] is not in src/; its two helpers that [compute] calls are
    modelled from the specification. *)

(** The ego vehicle and the other vehicle both have a state at the time
    step. *)
Definition both_states_resolvable (sc : Scenario) (vehicle_id time_step : Z)
    : bool :=
  match state_at_time sc (ego_id sc) time_step,
        state_at_time sc vehicle_id time_step with
  | Some _, Some _ => true
  | _, _ => false
  end.

(** Modelled from the spec: [CriMeBase.validate_update_states_log] is
    missing from src/.  The spec (4.4, step 1): "Validate that both actors
    have resolvable states at [time_step]; if not, return NaN (failure is
    silent-to-caller but logged)".  The check holds when the ego vehicle
    and the other vehicle both have a state at the time step; a failed check
    is logged. *)
Definition validate_update_states_log (sc : Scenario)
    (vehicle_id time_step : Z) (verbose : bool) : M bool :=
  if both_states_resolvable sc vehicle_id time_step then ret true
  else
    print_and_log_info (LogNotValid vehicle_id time_step) verbose ;;;
    ret false.

(** Modelled from the spec: [CriMeBase._except_obstacle_in_same_lanelet]
    is missing from src/.  The spec (4.4, step 2): "if the two actors are
    already in the same lane with zero required exception value, skip the
    full computation and return the canonical non-critical value".  When
    the exception applies, the expected value becomes the measure's value
    and the check answers [True]. *)
Definition except_obstacle_in_same_lanelet (sc : Scenario)
    (vehicle_id time_step : Z) (expected_value : float) (verbose : bool)
    : M bool :=
  if same_lanelet_exception sc vehicle_id time_step then
    print_and_log_info (LogException expected_value) verbose ;;;
    set_value expected_value ;;;
    ret true
  else ret false.

(** ** [ALongReq.compute] *)

(** [vehicle.state_at_time(time_step).attr]: reading an attribute of
    [None] raises. *)
Definition state_of (sc : Scenario) (vehicle_id time_step : Z) : outcome State :=
  match state_at_time sc vehicle_id time_step with
  | Some s => Ret s
  | None => Raise AttributeError
  end.

(** [lanelet_id[0]] *)
Definition first_lanelet (ids : list Z) : outcome Z :=
  match ids with
  | id :: _ => Ret id
  | [] => Raise IndexError
  end.

(** [math.sqrt(x ** 2 + y ** 2) * math.cos(orientation)]: the component
    along the lanelet of a vector given by its two coordinates. *)
Definition along_lanelet `{Runtime} (x y : float) (orientation : option float)
    : outcome float :=
  let? sx := PyFloat.pow2 x in
  let? sy := PyFloat.pow2 y in
  let? r := PyFloat.math_sqrt (sx + sy) in
  let? c := math_cos orientation in
  Ret (r * c).

(** Lines 81-92: the two kinematic models, selected by
    [acceleration_mode]. *)
Definition kinematic_model (mode : Z) (a_obj x_rel v_ego_long v_other_long : float)
    (verbose : bool) : M float :=
  if (mode =? 1)%Z then
    let v_rel := v_other_long - v_ego_long in
    print_and_log_info (LogRelativeVelocity v_rel) verbose ;;;
    lift (let? sq := PyFloat.pow2 v_rel in
          let? q := PyFloat.div sq (2 * x_rel) in
          Ret (PyFloat.min (a_obj - q) 0))
  else
    lift (let? sq_ego := PyFloat.pow2 v_ego_long in
          let? sq_other := PyFloat.pow2 v_other_long in
          PyFloat.div (- sq_ego) (2 * (x_rel - sq_other / 2 * a_obj))).

(** Lines 93-100: clamp or round, store, log and return the stored
    value. *)
Definition post_process `{Runtime} (a_req : float) (verbose : bool)
    : M (option float) :=
  (if PyFloat.gt0 a_req then set_value 0
   else (r <- lift (int_round a_req 2) ;; set_value r)) ;;;
  v <- get_value ;;
  print_and_log_info (LogMeasure v) verbose ;;;
  get_value.

(** Lines 64-80: the other vehicle's acceleration along the lanelet, the
    headway and the two velocities along the lanelet, in the order the
    source evaluates them. *)
Definition longitudinal_inputs `{Runtime} (sc : Scenario)
    (vehicle_id time_step : Z) (verbose : bool)
    (ego_orientation other_orientation : option float)
    : outcome (float * float * float * float) :=
  let? other := state_of sc vehicle_id time_step in
  let? a_obj := along_lanelet (acceleration other) (acceleration_y other)
                  other_orientation in
  let? x_rel := HW_compute sc vehicle_id time_step verbose in
  let? ego := state_of sc (ego_id sc) time_step in
  let? v_ego_long := along_lanelet (velocity ego) (velocity_y ego)
                       ego_orientation in
  let? v_other_long := along_lanelet (velocity other) (velocity_y other)
                         other_orientation in
  Ret (a_obj, x_rel, v_ego_long, v_other_long).

(** Lines 49-92: the raw required acceleration [a_req]. *)
Definition raw_required_acceleration `{Runtime} (sc : Scenario)
    (cfg : Configuration) (vehicle_id time_step : Z) (verbose : bool)
    : M float :=
  ego <- lift (state_of sc (ego_id sc) time_step) ;;
  lanelet_id <- lift (first_lanelet (find_lanelet_by_position sc (position ego))) ;;
  let ego_orientation :=
    snd (compute_lanelet_width_orientation sc lanelet_id (position ego)) in
  other <- lift (state_of sc vehicle_id time_step) ;;
  let other_orientation :=
    snd (compute_lanelet_width_orientation sc lanelet_id (position other)) in
  if negb (PyFloat.truthy ego_orientation) || negb (PyFloat.truthy other_orientation)
  then ret 0
  else
    '(a_obj, x_rel, v_ego_long, v_other_long) <-
      lift (longitudinal_inputs sc vehicle_id time_step verbose
              ego_orientation other_orientation) ;;
    kinematic_model (acceleration_mode cfg) a_obj x_rel v_ego_long v_other_long
      verbose.

(** [ALongReq.compute(vehicle_id, time_step, verbose)] *)
Definition compute `{Runtime} (sc : Scenario) (cfg : Configuration)
    (vehicle_id time_step : Z) (verbose : bool) : M (option float) :=
  valid <- validate_update_states_log sc vehicle_id time_step verbose ;;
  if negb valid then ret (Some nan)
  else
    excepted <- except_obstacle_in_same_lanelet sc vehicle_id time_step 0 verbose ;;
    if excepted then
      v <- get_value ;;
      print_and_log_info (LogMeasure v) verbose ;;;
      get_value
    else
      a_req <- raw_required_acceleration sc cfg vehicle_id time_step verbose ;;
      post_process a_req verbose.

(** ** The two formulas in the words of the specification

    Used only to compare the source with the specification. *)

(** Spec 4.4, step 7, constant-acceleration model: "min(other's
    longitudinal acceleration - (relative longitudinal velocity)^2 / (2 x
    relative distance), 0.0)", the relative velocity being the other's
    longitudinal velocity minus the ego's. *)
Definition spec_constant_acceleration
    (a_obj x_rel v_ego_long v_other_long : float) : float :=
  let v_rel := v_other_long - v_ego_long in
  PyFloat.min (a_obj - (v_rel * v_rel) / (2 * x_rel)) 0.

(** Spec 4.4, step 7, piecewise-constant-motion model: "-(ego longitudinal
    velocity)^2 / (2 x (relative distance - (other longitudinal velocity)^2
    / (2 x other longitudinal acceleration)))". *)
Definition spec_piecewise_constant
    (a_obj x_rel v_ego_long v_other_long : float) : float :=
  - (v_ego_long * v_ego_long)
  / (2 * (x_rel - (v_other_long * v_other_long) / (2 * a_obj))).

(** ** A runtime for the examples *)

(** [int(x)] on a float: truncation toward zero; NaN and the infinities
    have no integer. *)
Definition int_of_float (x : float) : outcome Z :=
  match Prim2SF x with
  | S754_nan => Raise ValueError
  | S754_infinity _ => Raise OverflowError
  | S754_zero _ => Ret 0%Z
  | S754_finite s m e =>
      let a := Z.shiftl (Zpos m) e in
      Ret (if s then (- a)%Z else a)
  end.

(** The float nearest to an integer below 2^63 in magnitude. *)
Definition float_of_int (n : Z) : outcome float :=
  if (Z.abs n <? 2 ^ 63)%Z then
    Ret (if (n <? 0)%Z then - of_uint63 (Uint63.of_Z (- n))
         else of_uint63 (Uint63.of_Z n))
  else Raise OverflowError.

(** Modelled from the spec: [utils_gen.int_round] is missing from src/.
    The spec (4.4, step 8) asks to "round to a fixed numeric precision (2
    decimal places)" and leaves the convention for halves open; NaN and
    the infinities are "valid sentinels" of a result (3) and NaN
    "propagates" (7).  This instance passes NaN and the infinities through
    and rounds halves away from zero: it scales by [10 ^ n], moves by one
    half away from zero, truncates and scales back. *)
Definition round_half_away (x : float) (n : Z) : outcome float :=
  if is_nan x || is_infinity x then Ret x
  else
    let? p := float_of_int (10 ^ n) in
    let? k := int_of_float (if x <? 0 then x * p - 0.5 else x * p + 0.5) in
    let? kf := float_of_int k in
    Ret (kf / p).

(** The double nearest to pi, and twice it. *)
Definition pi : float := 0x1.921fb54442d18p+1.
Definition two_pi : float := 0x1.921fb54442d18p+2.

(** The cosine at the arguments the examples use: 1 at zero and at
    [two_pi], -1 at [pi] (as [math.cos] returns them); NaN stands for an
    argument that is not tabulated. *)
Definition cos_table (x : float) : float :=
  if x =? 0 then 1
  else if abs x =? two_pi then 1
  else if abs x =? pi then -1
  else nan.

Definition example_runtime : Runtime :=
  {| libm_cos := cos_table; int_round := round_half_away |}.


(** ** Example scenarios: an ego vehicle (id 0) and another vehicle (id 1)
    on lanelet 7 *)

Definition vehicle (x v a : float) : State :=
  {| position := (x, 0); velocity := v; velocity_y := 0;
     acceleration := a; acceleration_y := 0 |}.

(** The ego vehicle is at longitudinal position 0; the lanelet's
    orientation is [ego_orientation] there and [other_orientation]
    elsewhere. *)
Definition scene (ego other : option State)
    (ego_orientation other_orientation : option float)
    (excepted : bool) (headway : outcome float) : Scenario :=
  {| ego_id := 0;
     state_at_time := fun v _ =>
       if (v =? 0)%Z then ego else if (v =? 1)%Z then other else None;
     find_lanelet_by_position := fun _ => [7%Z];
     compute_lanelet_width_orientation := fun _ p =>
       if fst p =? 0 then (Some 3.5, ego_orientation)
       else (Some 3.5, other_orientation);
     same_lanelet_exception := fun _ _ => excepted;
     HW_compute := fun _ _ _ => headway |}.

Definition constant_acceleration : Configuration := {| acceleration_mode := 1 |}.
Definition piecewise_constant : Configuration := {| acceleration_mode := 2 |}.

(** A measure object that no call has written yet. *)
Definition fresh : Measure := {| value := None; writes := 0; log := [] |}.

(** A measure object that holds the result of an earlier call. *)
Definition used : Measure := {| value := Some (-1.5); writes := 1; log := [] |}.

(** The scenario of the spec's concrete example (8.7): ego with velocity
    10, the other vehicle 20 m ahead with velocity 5 and acceleration 0. *)
Definition following (orientation : option float) (headway : outcome float)
    : Scenario :=
  scene (Some (vehicle 0 10 0)) (Some (vehicle 20 5 0))
        orientation orientation false headway.

(** ** Notions used in the statements *)

(** The inputs of the kinematic-model step, when the call reaches it: both
    states are there, the same-lanelet exception does not apply, the ego
    vehicle is on a lanelet, both orientations are true and lines 64-80
    raise nothing. *)
Definition kinematic_step_inputs `{Runtime} (sc : Scenario)
    (vehicle_id time_step : Z) (verbose : bool)
    : option (float * float * float * float) :=
  match state_at_time sc (ego_id sc) time_step,
        state_at_time sc vehicle_id time_step with
  | Some ego, Some other =>
      if same_lanelet_exception sc vehicle_id time_step then None
      else
        match find_lanelet_by_position sc (position ego) with
        | [] => None
        | lanelet_id :: _ =>
            let ego_orientation :=
              snd (compute_lanelet_width_orientation sc lanelet_id (position ego)) in
            let other_orientation :=
              snd (compute_lanelet_width_orientation sc lanelet_id (position other)) in
            if PyFloat.truthy ego_orientation && PyFloat.truthy other_orientation
            then
              match longitudinal_inputs sc vehicle_id time_step verbose
                      ego_orientation other_orientation with
              | Ret inputs => Some inputs
              | Raise _ => None
              end
            else None
        end
  | _, _ => None
  end.

(** The divisor of the division of the selected model, as the source
    computes it (the squares taken as IEEE products). *)
Definition divisor (mode : Z) (a_obj x_rel v_other_long : float) : float :=
  if (mode =? 1)%Z then 2 * x_rel
  else 2 * (x_rel - v_other_long * v_other_long / 2 * a_obj).

Definition returns {A : Type} (o : outcome A) : bool :=
  match o with
  | Ret _ => true
  | Raise _ => false
  end.

(** The squares the selected model takes are in range. *)
Definition squares_in_range (mode : Z) (v_ego_long v_other_long : float) : bool :=
  if (mode =? 1)%Z then returns (PyFloat.pow2 (v_other_long - v_ego_long))
  else returns (PyFloat.pow2 v_ego_long) && returns (PyFloat.pow2 v_other_long).

(** The measure object when the kinematic-model step is over: the
    constant-acceleration branch has logged the relative velocity. *)
Definition after_kinematic_model (mode : Z) (v_ego_long v_other_long : float)
    (verbose : bool) (m : Measure) : Measure :=
  if (mode =? 1)%Z
  then logged (LogRelativeVelocity (v_other_long - v_ego_long)) verbose m
  else m.

(** The measure object after [self.value = v] and the log of the new
    value that ends [compute]. *)
Definition stored (v : float) (verbose : bool) (m : Measure) : Measure :=
  {| value := Some v; writes := S (writes m);
     log := log m ++ [(verbose, LogMeasure (Some v))] |}.

(** ** Signs of floats, for the rounding instance *)

(** A float in its specification form carries the sign [s]. *)
Definition signed (s : bool) (f : spec_float) : Prop :=
  match f with
  | S754_zero s' | S754_infinity s' | S754_finite s' _ _ => s' = s
  | S754_nan => False
  end.


From Stdlib Require Import Sorted.

(** A float in its specification form is not below zero (NaN is not). *)
Definition not_negative (f : spec_float) : bool :=
  negb (SFltb f (S754_zero false)).

(** A float in its specification form is not above zero (NaN is not). *)
Definition not_positive (f : spec_float) : bool :=
  negb (SFltb (S754_zero false) f).

(** The exceptions that the arithmetic and the indexing of [compute]
    itself can raise. *)
Definition own_exception (e : exn) : Prop :=
  e = IndexError \/ e = ValueError \/ e = OverflowError \/ e = ZeroDivisionError.

(** A scenario in which no position lies on a lanelet. *)
Definition off_road (sc : Scenario) : Scenario :=
  {| ego_id := ego_id sc;
     state_at_time := state_at_time sc;
     find_lanelet_by_position := fun _ => [];
     compute_lanelet_width_orientation := compute_lanelet_width_orientation sc;
     same_lanelet_exception := same_lanelet_exception sc;
     HW_compute := HW_compute sc |}.

(** * Drawing helpers (src/commonroad_crime/utility/visualization.py)

    The helpers draw on the axes of a renderer and share the module-level
    counter [zorder].  What they hand to matplotlib is recorded as a list
    of artists, in the order of the calls. *)

(** Python's [l[i]]: a negative index counts from the end, an index out of
    range is an [IndexError]. *)
Definition list_index {A : Type} (l : list A) (i : Z) : outcome A :=
  let n := Z.of_nat (length l) in
  let j := if (i <? 0)%Z then (i + n)%Z else i in
  if ((0 <=? j) && (j <? n))%Z then
    match nth_error l (Z.to_nat j) with
    | Some a => Ret a
    | None => Raise IndexError
    end
  else Raise IndexError.

(** Python's [l[start:stop]]: negative bounds count from the end, and
    bounds are clipped to the list. *)
Definition list_slice {A : Type} (l : list A) (start stop : Z) : list A :=
  let n := Z.of_nat (length l) in
  let clip i := if (i <? 0)%Z then Z.max (i + n) 0 else Z.min i n in
  let s := clip start in
  let e := clip stop in
  firstn (Z.to_nat (e - s)) (skipn (Z.to_nat s) l).

(** [plot_limits_from_state_list(time_step, state_list, margin)] *)
Definition plot_limits_from_state_list (time_step : Z) (state_list : list State)
    (margin : float) : outcome (list float) :=
  let? s0 := list_index state_list time_step in
  let x_min := fst (position s0) - margin in
  let? s1 := list_index state_list (-1) in
  let x_max := fst (position s1) + margin in
  let? s2 := list_index state_list time_step in
  let y_min := snd (position s2) - margin / 2 in
  let? s3 := list_index state_list time_step in
  let y_max := snd (position s3) + margin / 2 in
  Ret [x_min; x_max; y_min; y_max].

(** The names of [TUMcolor]. *)
Inductive TUMcolor : Type :=
| TUMblue | TUMred | TUMdarkred | TUMgreen | TUMgray | TUMdarkgray
| TUMorange | TUMdarkblue | TUMwhite | TUMblack | TUMlightgray.

Inductive marker : Type :=
| MarkerPoint
| MarkerCircle.

(** What is handed to the axes: [plt.Circle] patches, [ax.fill] polygons
    and [ax.plot] lines, each with its [zorder]. *)
Inductive artist : Type :=
| CirclePatch (center : float * float) (radius : float) (color : TUMcolor)
    (linewidth alpha : option float) (z : Z)
| FillPolygon (exterior : list (float * float)) (alpha : float)
    (color : TUMcolor) (z : Z)
| PlotLine (points : list (float * float)) (color : TUMcolor) (mark : marker)
    (markersize linewidth : float) (alpha : option float) (z : Z).

Definition artist_zorder (a : artist) : Z :=
  match a with
  | CirclePatch _ _ _ _ _ z => z
  | FillPolygon _ _ _ z => z
  | PlotLine _ _ _ _ _ _ z => z
  end.

(** The module-level [zorder] and the artists on the renderer's axes. *)
Record Drawing : Type := {
  zorder : Z;
  ax : list artist
}.

(** The state at import time: [zorder = 22]. *)
Definition initial_drawing : Drawing := {| zorder := 22; ax := [] |}.

(** The shape of an occupancy: a single shape with the exterior of its
    [shapely_object], or a [ShapeGroup] of such shapes. *)
Inductive Shape : Type :=
| SingleShape (exterior : list (float * float))
| ShapeGroup (shapes : list (list (float * float))).

(** A trajectory prediction: [initial_time_step], [final_time_step] and
    [trajectory.state_list]. *)
Record Prediction : Type := {
  initial_time_step : Z;
  final_time_step : Z;
  state_list : list State
}.

(** An obstacle as the helpers read it: [occupancy_at_time(t)] gives the
    shape at [t] or [None], [prediction] may be [None]. *)
Record Obstacle : Type := {
  occupancy_at_time : Z -> option Shape;
  prediction : option Prediction
}.

(** [draw_state(rnd, state, color)] *)
Definition draw_state (state : State) (color : TUMcolor) (d : Drawing)
    : outcome unit * Drawing :=
  let cir_c := CirclePatch (position state) 0x1.eb851eb851eb8p-4 color
                 (Some 10) None (zorder d) in
  let cir_b := CirclePatch (position state) 0x1.999999999999ap-3 TUMwhite
                 (Some 10) None (zorder d - 1) in
  (Ret tt, {| zorder := zorder d + 1; ax := ax d ++ [cir_c; cir_b] |}).

(** The [alpha] of a matplotlib artist ([Artist.set_alpha], called when
    the artist is made from its keyword arguments, before it is added to
    the axes): a number outside the range from 0 to 1, NaN included, is a
    [ValueError]. *)
Definition valid_alpha (alpha : float) : bool :=
  (0 <=? alpha) && (alpha <=? 1).

(** [draw_dyn_vehicle_shape(rnd, obstacle, time_step, color, alpha)]: the
    first [rnd.ax.fill] raises for an [alpha] out of range, before anything
    is added and before [zorder += 1]; an empty [ShapeGroup] fills
    nothing. *)
Definition draw_dyn_vehicle_shape (obstacle : Obstacle) (time_step : Z)
    (color : TUMcolor) (alpha : float) (d : Drawing) : outcome unit * Drawing :=
  match occupancy_at_time obstacle time_step with
  | None => (Raise AttributeError, d)
  | Some (ShapeGroup []) => (Ret tt, {| zorder := zorder d + 1; ax := ax d |})
  | Some (ShapeGroup shapes) =>
      if valid_alpha alpha then
        (Ret tt,
         {| zorder := zorder d + 1;
            ax := ax d ++ map (fun xy => FillPolygon xy alpha color (zorder d)) shapes |})
      else (Raise ValueError, d)
  | Some (SingleShape xy) =>
      if valid_alpha alpha then
        (Ret tt,
         {| zorder := zorder d + 1;
            ax := ax d ++ [FillPolygon xy alpha color (zorder d)] |})
      else (Raise ValueError, d)
  end.

(** [draw_circle(rnd, center, radius, opacity, color)]: [plt.Circle]
    raises for an [opacity] out of range, before [zorder += 1]. *)
Definition draw_circle (center : float * float) (radius opacity : float)
    (color : TUMcolor) (d : Drawing) : outcome unit * Drawing :=
  if valid_alpha opacity then
    (Ret tt,
     {| zorder := zorder d + 1;
        ax := ax d ++ [CirclePatch center radius color None (Some opacity) (zorder d)] |})
  else (Raise ValueError, d).

(** [draw_reference_path(rnd, ref_path, color)] *)
Definition draw_reference_path (ref_path : list (float * float))
    (color : TUMcolor) (d : Drawing) : outcome unit * Drawing :=
  (Ret tt,
   {| zorder := zorder d + 1;
      ax := ax d ++ [PlotLine ref_path color MarkerPoint 1 1 None (zorder d)] |}).

(** Python's [a / b] on integers: the float nearest to the quotient. *)
Definition int_to_SF (n : Z) : spec_float :=
  match n with
  | Z0 => S754_zero false
  | Zpos p => S754_finite false p 0
  | Zneg p => S754_finite true p 0
  end.

Definition int_true_divide (a b : Z) : outcome float :=
  if (b =? 0)%Z then Raise ZeroDivisionError
  else if (a =? 0)%Z then Ret (if (b <? 0)%Z then neg_zero else 0)
  else
    match SFdiv prec emax (int_to_SF a) (int_to_SF b) with
    | S754_infinity _ => Raise OverflowError
    | q => Ret (SF2Prim q)
    end.

(** Truth value of an object that is [None] or an integer. *)
Definition truthy_int (o : option Z) : bool :=
  match o with
  | None => false
  | Some z => negb (z =? 0)%Z
  end.

(** The opacity of a trajectory: [0.5 * (start_time_step / len(state_list)
    + 1)] when [start_time_step] is true, and 1 otherwise. *)
Definition trajectory_opacity (start_time_step : option Z) (len : Z)
    : outcome float :=
  match start_time_step with
  | Some s =>
      if truthy_int start_time_step then
        let? q := int_true_divide s len in
        Ret (0.5 * (q + 1))
      else Ret 1
  | None => Ret 1
  end.

(** [draw_state_list(rnd, state_list, start_time_step, color, linewidth)]:
    [rnd.ax.plot] raises for an opacity out of range (a [start_time_step]
    beyond the length of the list in magnitude), before the line is added
    and before [zorder += 1]. *)
Definition draw_state_list (states : list State) (start_time_step : option Z)
    (color : TUMcolor) (linewidth : float) (d : Drawing)
    : outcome unit * Drawing :=
  match states with
  | [] => (Ret tt, d)
  | _ :: _ =>
      let pos := map position states in
      match trajectory_opacity start_time_step (Z.of_nat (length states)) with
      | Raise e => (Raise e, d)
      | Ret opacity =>
          if valid_alpha opacity then
            (Ret tt,
             {| zorder := zorder d + 1;
                ax := ax d ++ [PlotLine pos color MarkerCircle 5 linewidth
                                 (Some opacity) (zorder d)] |})
          else (Raise ValueError, d)
      end
  end.

(** [min(l)] and [max(l)] on a list of integers: an empty list is a
    [ValueError]. *)
Definition list_min (l : list Z) : outcome Z :=
  match l with
  | [] => Raise ValueError
  | x :: rest => Ret (fold_left Z.min rest x)
  end.

Definition list_max (l : list Z) : outcome Z :=
  match l with
  | [] => Raise ValueError
  | x :: rest => Ret (fold_left Z.max rest x)
  end.

(** The part of a predicted trajectory that
    [visualize_scenario_at_time_steps] draws for the window from
    [plot_begin] to [plot_end]:
    [state_list[plot_traj_begin_index : plot_traj_end_index + 1]]. *)
Definition trajectory_in_window (p : Prediction) (plot_begin plot_end : Z)
    : list State :=
  let plot_traj_begin_time_step := Z.max (initial_time_step p) plot_begin in
  let plot_traj_end_time_step := Z.min (final_time_step p) plot_end in
  let plot_traj_begin_index :=
    (plot_traj_begin_time_step - initial_time_step p)%Z in
  let plot_traj_end_index :=
    (plot_traj_end_time_step - initial_time_step p)%Z in
  list_slice (state_list p) plot_traj_begin_index (plot_traj_end_index + 1).

(** The inner loop: the shape of the obstacle at every time step of
    [time_steps] from one before the begin of the drawn trajectory to its
    end. *)
Fixpoint draw_shapes_in_window (obs : Obstacle) (time_steps : list Z)
    (begin_time_step end_time_step : Z) (d : Drawing)
    : outcome unit * Drawing :=
  match time_steps with
  | [] => (Ret tt, d)
  | ts :: rest =>
      if ((begin_time_step - 1 <=? ts) && (ts <=? end_time_step))%Z then
        match draw_dyn_vehicle_shape obs ts TUMblue 0.5 d with
        | (Ret _, d') =>
            draw_shapes_in_window obs rest begin_time_step end_time_step d'
        | (Raise e, d') => (Raise e, d')
        end
      else draw_shapes_in_window obs rest begin_time_step end_time_step d
  end.

(** The body of the loop over the obstacles. *)
Definition draw_obstacle_in_window (obs : Obstacle) (time_steps : list Z)
    (plot_begin plot_end : Z) (d : Drawing) : outcome unit * Drawing :=
  match prediction obs with
  | None => (Raise AttributeError, d)
  | Some p =>
      match draw_state_list (trajectory_in_window p plot_begin plot_end)
              None TUMblue 5 d with
      | (Ret _, d') =>
          draw_shapes_in_window obs time_steps
            (Z.max (initial_time_step p) plot_begin)
            (Z.min (final_time_step p) plot_end) d'
      | (Raise e, d') => (Raise e, d')
      end
  end.

Fixpoint draw_obstacles_in_window (obstacles : list Obstacle)
    (time_steps : list Z) (plot_begin plot_end : Z) (d : Drawing)
    : outcome unit * Drawing :=
  match obstacles with
  | [] => (Ret tt, d)
  | obs :: rest =>
      match draw_obstacle_in_window obs time_steps plot_begin plot_end d with
      | (Ret _, d') =>
          draw_obstacles_in_window rest time_steps plot_begin plot_end d'
      | (Raise e, d') => (Raise e, d')
      end
  end.

(** [visualize_scenario_at_time_steps(scenario, plot_limit, time_steps)]:
    a new renderer (what [scenario.draw] puts on it is not recorded), then
    the trajectories and shapes of [scenario.obstacles]. *)
Definition visualize_scenario_at_time_steps (obstacles : list Obstacle)
    (time_steps : list Z) (d : Drawing) : outcome unit * Drawing :=
  let rnd := {| zorder := zorder d; ax := [] |} in
  match list_min time_steps with
  | Raise e => (Raise e, rnd)
  | Ret plot_begin =>
      match list_max time_steps with
      | Raise e => (Raise e, rnd)
      | Ret plot_end =>
          draw_obstacles_in_window obstacles time_steps plot_begin plot_end rnd
      end
  end.

(** A call of one of the drawing helpers, and a sequence of such calls on
    one renderer, up to the first exception. *)
Inductive draw_call : Type :=
| CallDrawState (state : State) (color : TUMcolor)
| CallDrawDynVehicleShape (obstacle : Obstacle) (time_step : Z)
    (color : TUMcolor) (alpha : float)
| CallDrawCircle (center : float * float) (radius opacity : float)
    (color : TUMcolor)
| CallDrawReferencePath (ref_path : list (float * float)) (color : TUMcolor)
| CallDrawStateList (states : list State) (start_time_step : option Z)
    (color : TUMcolor) (linewidth : float).

Definition run_call (c : draw_call) (d : Drawing) : outcome unit * Drawing :=
  match c with
  | CallDrawState state color => draw_state state color d
  | CallDrawDynVehicleShape obstacle time_step color alpha =>
      draw_dyn_vehicle_shape obstacle time_step color alpha d
  | CallDrawCircle center radius opacity color =>
      draw_circle center radius opacity color d
  | CallDrawReferencePath ref_path color => draw_reference_path ref_path color d
  | CallDrawStateList states start_time_step color linewidth =>
      draw_state_list states start_time_step color linewidth d
  end.

Fixpoint run_calls (calls : list draw_call) (d : Drawing)
    : outcome unit * Drawing :=
  match calls with
  | [] => (Ret tt, d)
  | c :: rest =>
      match run_call c d with
      | (Ret _, d') => run_calls rest d'
      | (Raise e, d') => (Raise e, d')
      end
  end.

(** [d'] comes from [d] by drawing: the artists [new] were added on top of
    those of [d], none of them lower than one below the counter of [d] or
    as high as the counter of [d'], and the counter did not decrease. *)
Definition drawn_between (d d' : Drawing) (new : list artist) : Prop :=
  ax d' = ax d ++ new
  /\ (zorder d <= zorder d')%Z
  /\ Forall (fun a => (zorder d - 1 <= artist_zorder a < zorder d')%Z) new.

(** The subplot counters of [plot_criticality_curve] after one more
    measure (lines 313-316). *)
Definition next_subplot (nr_per_row : Z) (cell : Z * Z) : Z * Z :=
  let (count_row, count_column) := cell in
  let count_column := (count_column + 1)%Z in
  if (count_column >? nr_per_row - 1)%Z then ((count_row + 1)%Z, 0%Z)
  else (count_row, count_column).

(** The counters [(count_row, count_column)] with which the measure number
    [k] (from 0) is drawn; they start at [(0, 0)] (line 235). *)
Fixpoint subplot_of (nr_per_row : Z) (k : nat) : Z * Z :=
  match k with
  | O => (0%Z, 0%Z)
  | S k' => next_subplot nr_per_row (subplot_of nr_per_row k')
  end.

(** A straight trajectory for the examples: the states of the time steps
    3 to 7, at x = 3, ..., 7. *)
Definition example_prediction : Prediction :=
  {| initial_time_step := 3; final_time_step := 7;
     state_list := [vehicle 3 1 0; vehicle 4 1 0; vehicle 5 1 0;
                    vehicle 6 1 0; vehicle 7 1 0] |}.

(** The artists on the axes lie in the order of their [zorder], between
    [z0] and the counter. *)
Definition stacked (z0 : Z) (d : Drawing) : Prop :=
  StronglySorted Z.le (map artist_zorder (ax d))
  /\ Forall (fun a => (z0 <= artist_zorder a < zorder d)%Z) (ax d)
  /\ (z0 <= zorder d)%Z.

(** The obstacle can be drawn for the window: it has a prediction, and an
    occupancy at every time step of [time_steps] from one before the begin
    of the drawn trajectory to its end. *)
Definition can_draw (time_steps : list Z) (plot_begin plot_end : Z)
    (obs : Obstacle) : bool :=
  match prediction obs with
  | None => false
  | Some p =>
      forallb
        (fun ts =>
           match occupancy_at_time obs ts with
           | Some _ => true
           | None => false
           end)
        (filter
           (fun ts =>
              ((Z.max (initial_time_step p) plot_begin - 1 <=? ts)
               && (ts <=? Z.min (final_time_step p) plot_end))%Z)
           time_steps)
  end.

(** * Properties *)

(** ** Floats: NaN, infinities, zeros and signs *)

Lemma SFcompare_refl (f : spec_float) :
  f <> S754_nan -> SFcompare f f = Some Eq.
Proof.
  destruct f as [s | s | | s m e]; simpl; try congruence; intros _.
  - destruct s; reflexivity.
  - now destruct s; rewrite Z.compare_refl, Pos.compare_cont_refl.
Qed.

Lemma Prim2SF_nan (x : float) : Prim2SF x = S754_nan -> x = nan.
Proof. intros E. apply Prim2SF_inj. now rewrite E. Qed.

Lemma is_nan_true (x : float) : is_nan x = true -> x = nan.
Proof.
  unfold is_nan. rewrite eqb_spec. unfold SFeqb. intros E.
  apply Prim2SF_nan.
  destruct (Prim2SF x) as [s | s | | s m e] eqn:P; try reflexivity;
    rewrite SFcompare_refl in E by discriminate; discriminate.
Qed.


Lemma is_infinity_true (x : float) :
  is_infinity x = true -> x = infinity \/ x = neg_infinity.
Proof.
  unfold is_infinity. rewrite eqb_spec, abs_spec. unfold SFeqb. intros E.
  destruct (Prim2SF x) as [s | s | | s m e] eqn:P; simpl in E; try discriminate.
  destruct s; [right | left]; apply Prim2SF_inj; now rewrite P.
Qed.






(** ** Python float operations *)

(** When [x ** 2] returns, it returns the IEEE product [x * x]. *)
Lemma pow2_ret (x r : float) : PyFloat.pow2 x = Ret r -> r = x * x.
Proof.
  unfold PyFloat.pow2.
  destruct (is_nan x) eqn:N.
  - intros [= <-]. apply is_nan_true in N. now subst x.
  - destruct (is_infinity x) eqn:I.
    + intros [= <-]. now destruct (is_infinity_true _ I); subst x.
    + destruct (is_infinity (x * x)); [discriminate | now intros [= <-]].
Qed.

(** [x ** 2] either returns or raises [OverflowError]. *)
Lemma pow2_cases (x : float) :
  PyFloat.pow2 x = Ret (x * x) \/ PyFloat.pow2 x = Raise OverflowError.
Proof.
  destruct (PyFloat.pow2 x) as [r | e] eqn:P.
  - left. now rewrite (pow2_ret _ _ P).
  - right. unfold PyFloat.pow2 in P.
    destruct (is_nan x); [discriminate|].
    destruct (is_infinity x); [discriminate|].
    destruct (is_infinity (x * x)); congruence.
Qed.

Lemma div_ret (x y q : float) : PyFloat.div x y = Ret q -> q = x / y /\ (y =? 0) = false.
Proof.
  unfold PyFloat.div. destruct (y =? 0); [discriminate|]. now intros [= <-].
Qed.


(** ** Signs through the IEEE operations *)

Lemma shr_1_nonneg (mrs : shr_record) :
  (0 <= shr_m mrs)%Z -> (0 <= shr_m (shr_1 mrs))%Z.
Proof.
  destruct mrs as [mm r s]. destruct mm as [|p|p]; simpl; try lia;
    destruct p; simpl; lia.
Qed.

Lemma iter_shr_1_nonneg (p : positive) :
  forall mrs, (0 <= shr_m mrs)%Z -> (0 <= shr_m (iter_pos shr_1 p mrs))%Z.
Proof.
  induction p as [p IH | p IH |]; simpl; intros mrs Hm;
    auto using shr_1_nonneg.
Qed.

Lemma shr_fexp_nonneg (mz ez : Z) (l : location) :
  (0 <= mz)%Z -> (0 <= shr_m (fst (shr_fexp prec emax mz ez l)))%Z.
Proof.
  intros Hm. unfold shr_fexp, shr.
  assert (H0 : (0 <= shr_m (shr_record_of_loc mz l))%Z)
    by (destruct l as [|[]]; exact Hm).
  destruct (_ - ez)%Z; simpl; auto using iter_shr_1_nonneg.
Qed.

Lemma round_nearest_even_nonneg (mx : Z) (l : location) :
  (0 <= mx)%Z -> (0 <= round_nearest_even mx l)%Z.
Proof.
  destruct l as [|[]]; simpl; try destruct (Z.even mx); lia.
Qed.

Lemma binary_round_aux_signed (s : bool) (mz ez : Z) (l : location) :
  (0 <= mz)%Z -> signed s (binary_round_aux prec emax s mz ez l).
Proof.
  intros Hm. unfold binary_round_aux.
  pose proof (shr_fexp_nonneg mz ez l Hm) as H1.
  destruct (shr_fexp prec emax mz ez l) as [mrs' e']. simpl in H1.
  pose proof (shr_fexp_nonneg _ e' loc_Exact
                (round_nearest_even_nonneg _ (loc_of_shr_record mrs') H1)) as H2.
  destruct (shr_fexp prec emax _ e' loc_Exact) as [mrs'' e'']. simpl in H2.
  destruct (shr_m mrs''); simpl; try lia; try reflexivity.
  destruct (_ <=? _)%Z; reflexivity.
Qed.

















(** ** The kinematic models (lines 81-92) *)

(** What the source computes in the piecewise-constant-motion branch:
    [v_other_long ** 2 / 2 * a_obj] halves the square and multiplies it by
    the acceleration. *)
Lemma kinematic_model_piecewise_source
    (mode : Z) (a_obj x_rel v_ego_long v_other_long r : float)
    (verbose : bool) (m m' : Measure) :
  mode <> 1%Z ->
  kinematic_model mode a_obj x_rel v_ego_long v_other_long verbose m = (Ret r, m') ->
  r = - (v_ego_long * v_ego_long)
      / (2 * (x_rel - v_other_long * v_other_long / 2 * a_obj))
  /\ m' = m.
Proof.
  intros Hm. apply Z.eqb_neq in Hm.
  unfold kinematic_model, lift, obind. rewrite Hm.
  destruct (PyFloat.pow2 v_ego_long) as [se | e] eqn:Pe; [|discriminate].
  destruct (PyFloat.pow2 v_other_long) as [so | e] eqn:Po; [|discriminate].
  apply pow2_ret in Pe, Po. subst se so.
  intros [= D <-]. apply div_ret in D. now split.
Qed.

(** C1 (piecewise-constant-motion model, the source against the
    specification).  With ego longitudinal velocity 10, other longitudinal
    velocity 4, other longitudinal acceleration 2 and relative distance 20,
    the source returns -100 / (2 * (20 - 16 / 2 * 2)) = -12.5 as raw required
    acceleration, while the formula of the specification, which divides the
    squared velocity by twice the acceleration, gives
    -100 / (2 * (20 - 16 / 4)) = -3.125. *)
Theorem C1_piecewise_source_differs_from_spec :
  forall (verbose : bool) (m : Measure),
    kinematic_model 2 2 20 10 4 verbose m = (Ret (-12.5), m)
    /\ spec_piecewise_constant 2 20 10 4 = -3.125.
Proof. intros verbose m. split; reflexivity. Qed.

Lemma kinematic_model_constant_source
    (a_obj x_rel v_ego_long v_other_long : float)
    (verbose : bool) (m : Measure) :
  kinematic_model 1 a_obj x_rel v_ego_long v_other_long verbose m =
  (let? sq := PyFloat.pow2 (v_other_long - v_ego_long) in
   let? q := PyFloat.div sq (2 * x_rel) in
   Ret (PyFloat.min (a_obj - q) 0),
   logged (LogRelativeVelocity (v_other_long - v_ego_long)) verbose m).
Proof. reflexivity. Qed.

(** The constant-acceleration model when the square is in range and the
    divisor is not zero, and the only value it can yield. *)
Lemma kinematic_model_constant_in_range
    (a_obj x_rel v_ego_long v_other_long : float)
    (verbose : bool) (m : Measure) :
  squares_in_range 1 v_ego_long v_other_long = true ->
  (divisor 1 a_obj x_rel v_other_long =? 0) = false ->
  kinematic_model 1 a_obj x_rel v_ego_long v_other_long verbose m
  = (Ret (spec_constant_acceleration a_obj x_rel v_ego_long v_other_long),
     logged (LogRelativeVelocity (v_other_long - v_ego_long)) verbose m).
Proof.
  intros Hsq Hx. rewrite kinematic_model_constant_source.
  unfold squares_in_range in Hsq. cbn [Z.eqb Pos.eqb] in Hsq.
  unfold divisor in Hx. cbn [Z.eqb Pos.eqb] in Hx.
  destruct (PyFloat.pow2 (v_other_long - v_ego_long)) as [sq | e] eqn:P;
    [|discriminate].
  apply pow2_ret in P. subst sq. unfold obind, PyFloat.div. rewrite Hx.
  reflexivity.
Qed.

Lemma kinematic_model_constant_value
    (a_obj x_rel v_ego_long v_other_long r : float)
    (verbose : bool) (m : Measure) :
  fst (kinematic_model 1 a_obj x_rel v_ego_long v_other_long verbose m) = Ret r ->
  r = spec_constant_acceleration a_obj x_rel v_ego_long v_other_long.
Proof.
  rewrite kinematic_model_constant_source. cbn [fst]. unfold obind.
  destruct (PyFloat.pow2 _) as [sq | e] eqn:P; [|discriminate].
  destruct (PyFloat.div _ _) as [q | e] eqn:D; [|discriminate].
  apply pow2_ret in P. apply div_ret in D. destruct D as [-> _]. subst sq.
  now intros [= <-].
Qed.

Lemma min_zero_not_positive (a : float) :
  PyFloat.gt0 (PyFloat.min a 0) = false.
Proof.
  unfold PyFloat.gt0, PyFloat.min.
  destruct (0 <? a) eqn:E; [exact eq_refl | exact E].
Qed.

(** ** Post-processing (lines 93-100) *)

Lemma post_process_positive `{Runtime} (a_req : float) (verbose : bool) (m : Measure) :
  PyFloat.gt0 a_req = true ->
  post_process a_req verbose m = (Ret (Some 0), stored 0 verbose m).
Proof. intros G. unfold post_process, bind. now rewrite G. Qed.

Lemma post_process_rounds `{Runtime} (a_req : float) (verbose : bool) (m : Measure) :
  PyFloat.gt0 a_req = false ->
  post_process a_req verbose m =
  match int_round a_req 2 with
  | Ret r => (Ret (Some r), stored r verbose m)
  | Raise e => (Raise e, m)
  end.
Proof.
  intros G. unfold post_process, bind, lift. rewrite G.
  now destruct (int_round a_req 2).
Qed.

(** ** The structure of [compute] *)

Lemma compute_invalid `{Runtime} (sc : Scenario) (cfg : Configuration)
    (vehicle_id time_step : Z) (verbose : bool) (m : Measure) :
  both_states_resolvable sc vehicle_id time_step = false ->
  compute sc cfg vehicle_id time_step verbose m
  = (Ret (Some nan), logged (LogNotValid vehicle_id time_step) verbose m).
Proof.
  intros E. unfold compute, bind, validate_update_states_log. now rewrite E.
Qed.

Lemma compute_excepted `{Runtime} (sc : Scenario) (cfg : Configuration)
    (vehicle_id time_step : Z) (verbose : bool) (m : Measure) :
  both_states_resolvable sc vehicle_id time_step = true ->
  same_lanelet_exception sc vehicle_id time_step = true ->
  compute sc cfg vehicle_id time_step verbose m
  = (Ret (Some 0), stored 0 verbose (logged (LogException 0) verbose m)).
Proof.
  intros E X.
  unfold compute, bind, validate_update_states_log, except_obstacle_in_same_lanelet.
  rewrite E. cbn [ret negb]. unfold bind. now rewrite X.
Qed.

Lemma compute_main `{Runtime} (sc : Scenario) (cfg : Configuration)
    (vehicle_id time_step : Z) (verbose : bool) (m : Measure) :
  both_states_resolvable sc vehicle_id time_step = true ->
  same_lanelet_exception sc vehicle_id time_step = false ->
  compute sc cfg vehicle_id time_step verbose m
  = (a_req <- raw_required_acceleration sc cfg vehicle_id time_step verbose ;;
     post_process a_req verbose) m.
Proof.
  intros E X.
  unfold compute, validate_update_states_log, except_obstacle_in_same_lanelet.
  unfold bind at 1. rewrite E. cbn [ret negb].
  unfold bind at 1. now rewrite X.
Qed.

(** The kinematic-model step leaves the measure object alone, up to the
    log. *)
Lemma kinematic_model_measure (mode : Z) (a_obj x_rel v_ego_long v_other_long : float)
    (verbose : bool) (m : Measure) :
  snd (kinematic_model mode a_obj x_rel v_ego_long v_other_long verbose m)
  = after_kinematic_model mode v_ego_long v_other_long verbose m.
Proof.
  unfold kinematic_model, after_kinematic_model.
  now destruct (mode =? 1)%Z.
Qed.

(** Its outcome depends neither on the measure object nor on [verbose]. *)
Lemma kinematic_model_outcome (mode : Z) (a_obj x_rel v_ego_long v_other_long : float)
    (verbose1 verbose2 : bool) (m1 m2 : Measure) :
  fst (kinematic_model mode a_obj x_rel v_ego_long v_other_long verbose1 m1)
  = fst (kinematic_model mode a_obj x_rel v_ego_long v_other_long verbose2 m2).
Proof.
  unfold kinematic_model. now destruct (mode =? 1)%Z.
Qed.

Lemma compute_kinematic `{Runtime} (sc : Scenario) (cfg : Configuration)
    (vehicle_id time_step : Z) (verbose : bool) (m : Measure)
    (a_obj x_rel v_ego_long v_other_long : float) :
  kinematic_step_inputs sc vehicle_id time_step verbose
  = Some (a_obj, x_rel, v_ego_long, v_other_long) ->
  compute sc cfg vehicle_id time_step verbose m
  = (a_req <- kinematic_model (acceleration_mode cfg) a_obj x_rel
                v_ego_long v_other_long verbose ;;
     post_process a_req verbose) m.
Proof.
  unfold kinematic_step_inputs.
  destruct (state_at_time sc (ego_id sc) time_step) as [ego|] eqn:Eego;
    [|discriminate].
  destruct (state_at_time sc vehicle_id time_step) as [other|] eqn:Eother;
    [|discriminate].
  destruct (same_lanelet_exception sc vehicle_id time_step) eqn:X;
    [discriminate|].
  destruct (find_lanelet_by_position sc (position ego)) as [|l ls] eqn:L;
    [discriminate|].
  destruct (PyFloat.truthy _ && PyFloat.truthy _) eqn:T; [|discriminate].
  destruct (longitudinal_inputs _ _ _ _ _ _) as [inputs|e] eqn:I;
    [|discriminate].
  intros [= ->]. apply andb_prop in T. destruct T as [T1 T2].
  rewrite compute_main;
    [| unfold both_states_resolvable; now rewrite Eego, Eother | assumption].
  unfold raw_required_acceleration, state_of, first_lanelet, bind, lift.
  rewrite Eego. cbn beta iota. rewrite L. cbn beta iota.
  rewrite Eother. cbn beta iota. rewrite T1, T2. cbn [negb orb].
  now rewrite I.
Qed.

Lemma longitudinal_inputs_verbose `{Runtime} (sc : Scenario)
    (vehicle_id time_step : Z) (verbose1 verbose2 : bool)
    (ego_orientation other_orientation : option float) :
  HW_compute sc vehicle_id time_step verbose1
  = HW_compute sc vehicle_id time_step verbose2 ->
  longitudinal_inputs sc vehicle_id time_step verbose1
    ego_orientation other_orientation
  = longitudinal_inputs sc vehicle_id time_step verbose2
      ego_orientation other_orientation.
Proof. intros E. unfold longitudinal_inputs. now rewrite E. Qed.

(** Lines 49-92 assign nothing to [self.value]. *)
Lemma raw_required_acceleration_measure `{Runtime} (sc : Scenario)
    (cfg : Configuration) (vehicle_id time_step : Z) (verbose : bool)
    (m : Measure) :
  value (snd (raw_required_acceleration sc cfg vehicle_id time_step verbose m))
  = value m
  /\ writes (snd (raw_required_acceleration sc cfg vehicle_id time_step verbose m))
     = writes m.
Proof.
  unfold raw_required_acceleration, bind, lift.
  destruct (state_of sc (ego_id sc) time_step) as [ego|e]; [|now split].
  destruct (first_lanelet _) as [l|e]; [|now split].
  destruct (state_of sc vehicle_id time_step) as [other|e]; [|now split].
  destruct (negb _ || negb _); [now split|].
  destruct (longitudinal_inputs _ _ _ _ _ _) as [[[[a x] ve] vo]|e];
    [|now split].
  rewrite kinematic_model_measure. unfold after_kinematic_model.
  now destruct (_ =? 1)%Z.
Qed.

(** Their outcome depends on the measure object not at all, and on
    [verbose] only through the headway measure. *)
Lemma raw_required_acceleration_outcome `{Runtime} (sc : Scenario)
    (cfg : Configuration) (vehicle_id time_step : Z)
    (verbose1 verbose2 : bool) (m1 m2 : Measure) :
  HW_compute sc vehicle_id time_step verbose1
  = HW_compute sc vehicle_id time_step verbose2 ->
  fst (raw_required_acceleration sc cfg vehicle_id time_step verbose1 m1)
  = fst (raw_required_acceleration sc cfg vehicle_id time_step verbose2 m2).
Proof.
  intros E. unfold raw_required_acceleration, bind, lift.
  destruct (state_of sc (ego_id sc) time_step) as [ego|e]; [|reflexivity].
  destruct (first_lanelet _) as [l|e]; [|reflexivity].
  destruct (state_of sc vehicle_id time_step) as [other|e]; [|reflexivity].
  destruct (negb _ || negb _); [reflexivity|].
  rewrite (longitudinal_inputs_verbose sc vehicle_id time_step verbose1 verbose2 _ _ E).
  destruct (longitudinal_inputs _ _ _ _ _ _) as [[[[a x] ve] vo]|e];
    [|reflexivity].
  apply kinematic_model_outcome.
Qed.

Lemma post_process_outcome `{Runtime} (a_req : float)
    (verbose1 verbose2 : bool) (m1 m2 : Measure) :
  fst (post_process a_req verbose1 m1) = fst (post_process a_req verbose2 m2).
Proof.
  destruct (PyFloat.gt0 a_req) eqn:G.
  - now rewrite !post_process_positive.
  - rewrite !post_process_rounds by assumption.
    now destruct (int_round a_req 2).
Qed.

(** A call of [post_process] that returns has assigned [self.value] once,
    and returns what it assigned; a call that raises has assigned
    nothing. *)
Lemma post_process_measure `{Runtime} (a_req : float) (verbose : bool)
    (m : Measure) :
  match post_process a_req verbose m with
  | (Ret v, m') => writes m' = S (writes m) /\ value m' = v
  | (Raise _, m') => m' = m
  end.
Proof.
  destruct (PyFloat.gt0 a_req) eqn:G.
  - rewrite post_process_positive by assumption. now split.
  - rewrite post_process_rounds by assumption.
    now destruct (int_round a_req 2).
Qed.

Lemma missing_state_not_resolvable (sc : Scenario) (vehicle_id time_step : Z) :
  state_at_time sc (ego_id sc) time_step = None
  \/ state_at_time sc vehicle_id time_step = None ->
  both_states_resolvable sc vehicle_id time_step = false.
Proof.
  unfold both_states_resolvable. intros [-> | ->]; [reflexivity|].
  now destruct (state_at_time sc (ego_id sc) time_step).
Qed.

(** A call that reaches the kinematic-model step has passed the
    validation and the exception check, and lines 49-92 give it the raw
    required acceleration of the configured model on the inputs of the
    step. *)
Lemma raw_required_acceleration_kinematic `{Runtime} (sc : Scenario)
    (cfg : Configuration) (vehicle_id time_step : Z) (verbose : bool)
    (m : Measure) (a_obj x_rel v_ego_long v_other_long : float) :
  kinematic_step_inputs sc vehicle_id time_step verbose
  = Some (a_obj, x_rel, v_ego_long, v_other_long) ->
  both_states_resolvable sc vehicle_id time_step = true
  /\ same_lanelet_exception sc vehicle_id time_step = false
  /\ raw_required_acceleration sc cfg vehicle_id time_step verbose m
     = kinematic_model (acceleration_mode cfg) a_obj x_rel
         v_ego_long v_other_long verbose m.
Proof.
  unfold kinematic_step_inputs.
  destruct (state_at_time sc (ego_id sc) time_step) as [ego|] eqn:Eego;
    [|discriminate].
  destruct (state_at_time sc vehicle_id time_step) as [other|] eqn:Eother;
    [|discriminate].
  destruct (same_lanelet_exception sc vehicle_id time_step) eqn:X;
    [discriminate|].
  destruct (find_lanelet_by_position sc (position ego)) as [|l ls] eqn:L;
    [discriminate|].
  destruct (PyFloat.truthy _ && PyFloat.truthy _) eqn:T; [|discriminate].
  destruct (longitudinal_inputs _ _ _ _ _ _) as [inputs|e] eqn:I;
    [|discriminate].
  intros [= ->]. apply andb_prop in T. destruct T as [T1 T2].
  split; [unfold both_states_resolvable; now rewrite Eego, Eother|].
  split; [reflexivity|].
  unfold raw_required_acceleration, state_of, first_lanelet, bind, lift.
  rewrite Eego. cbn beta iota. rewrite L. cbn beta iota.
  rewrite Eother. cbn beta iota. rewrite T1, T2. cbn [negb orb].
  now rewrite I.
Qed.

(** ** Claims on the whole of [compute] *)

(** C2 (constant-acceleration model).  On every call of [compute] that
    reaches the kinematic-model step with [acceleration_mode = 1], the raw
    required acceleration that lines 49-92 compute from the other vehicle's
    acceleration along the lanelet, the headway and the two velocities along
    the lanelet is min(a_obj - v_rel^2 / (2 * x_rel), 0.0) with
    v_rel = v_other_long - v_ego_long, that is 0.0 when the difference is
    above zero and the difference itself otherwise: the step yields no other
    value, it yields this one whenever the square is in range and 2 * x_rel
    is not zero, and the call then stores and returns [int_round] of it at 2
    decimal places.  For ego velocity 10, other velocity 5, other
    acceleration 0 and relative distance 20 the raw value is -0.625. *)
Theorem C2_constant_acceleration_model :
  forall (R : Runtime) (sc : Scenario) (cfg : Configuration)
         (vehicle_id time_step : Z) (verbose : bool) (m : Measure)
         (a_obj x_rel v_ego_long v_other_long : float),
    kinematic_step_inputs sc vehicle_id time_step verbose
    = Some (a_obj, x_rel, v_ego_long, v_other_long) ->
    acceleration_mode cfg = 1%Z ->
    let v_rel := v_other_long - v_ego_long in
    let difference := a_obj - v_rel * v_rel / (2 * x_rel) in
    let a_req := spec_constant_acceleration a_obj x_rel v_ego_long v_other_long in
    let m1 := logged (LogRelativeVelocity v_rel) verbose m in
    a_req = (if 0 <? difference then 0 else difference)
    /\ (forall r,
          fst (raw_required_acceleration sc cfg vehicle_id time_step verbose m)
          = Ret r ->
          r = a_req)
    /\ (squares_in_range (acceleration_mode cfg) v_ego_long v_other_long = true ->
        (divisor (acceleration_mode cfg) a_obj x_rel v_other_long =? 0) = false ->
        raw_required_acceleration sc cfg vehicle_id time_step verbose m
        = (Ret a_req, m1)
        /\ compute sc cfg vehicle_id time_step verbose m
           = match int_round a_req 2 with
             | Ret v => (Ret (Some v), stored v verbose m1)
             | Raise e => (Raise e, m1)
             end)
    /\ (a_obj = 0 -> x_rel = 20 -> v_ego_long = 10 -> v_other_long = 5 ->
        raw_required_acceleration sc cfg vehicle_id time_step verbose m
        = (Ret (-0.625), m1)).
Proof.
  intros R sc cfg vehicle_id time_step verbose m a_obj x_rel v_e v_o Hin Hmode
         v_rel difference a_req m1.
  destruct (raw_required_acceleration_kinematic sc cfg vehicle_id time_step
              verbose m a_obj x_rel v_e v_o Hin) as (_ & _ & Hraw).
  rewrite Hmode in *. split; [reflexivity|]. split; [|split].
  - intros r Hr. rewrite Hraw in Hr.
    now apply kinematic_model_constant_value in Hr.
  - intros Hsq Hx.
    pose proof (kinematic_model_constant_in_range a_obj x_rel v_e v_o verbose m
                  Hsq Hx) as Hmodel.
    split; [now rewrite Hraw|].
    rewrite (compute_kinematic _ _ _ _ _ _ _ _ _ _ Hin), Hmode. unfold bind.
    rewrite Hmodel. apply post_process_rounds, min_zero_not_positive.
  - intros -> -> -> ->. rewrite Hraw. reflexivity.
Qed.

(** Witness of C2: the scenario of the spec's example, with the example
    runtime; the raw value is -0.625 and the rounding instance (halves away
    from zero) stores the double nearest to -0.63. *)
Lemma C2_constant_acceleration_model_witness :
  @raw_required_acceleration example_runtime (following (Some two_pi) (Ret 20))
    constant_acceleration 1 0 true fresh
  = (Ret (-0.625), logged (LogRelativeVelocity (5 - 10)) true fresh)
  /\ @compute example_runtime (following (Some two_pi) (Ret 20))
       constant_acceleration 1 0 true fresh
     = (Ret (Some (-0x1.428f5c28f5c29p-1)),
        stored (-0x1.428f5c28f5c29p-1) true
          (logged (LogRelativeVelocity (5 - 10)) true fresh)).
Proof.
  assert (Hin : @kinematic_step_inputs example_runtime
                  (following (Some two_pi) (Ret 20)) 1 0 true
                = Some (0, 20, 10, 5)) by (vm_compute; reflexivity).
  destruct (C2_constant_acceleration_model example_runtime
              (following (Some two_pi) (Ret 20)) constant_acceleration 1 0 true
              fresh 0 20 10 5 Hin eq_refl) as (_ & _ & Hrange & Hexample).
  split.
  - apply Hexample; reflexivity.
  - destruct Hrange as [_ Hcompute]; [vm_compute; reflexivity ..|].
    rewrite Hcompute. vm_compute. reflexivity.
Defined.




(** C5 (missing state).  When the ego vehicle or the other vehicle has no
    state at the requested time step, [compute] returns NaN: it raises
    nothing, logs the failed validation and leaves the rest of the measure
    object as it was. *)
Theorem C5_missing_state_returns_nan :
  forall (R : Runtime) (sc : Scenario) (cfg : Configuration)
         (vehicle_id time_step : Z) (verbose : bool) (m : Measure),
    state_at_time sc (ego_id sc) time_step = None
    \/ state_at_time sc vehicle_id time_step = None ->
    compute sc cfg vehicle_id time_step verbose m
    = (Ret (Some nan), logged (LogNotValid vehicle_id time_step) verbose m).
Proof.
  intros R sc cfg vehicle_id time_step verbose m Hmissing.
  apply compute_invalid. now apply missing_state_not_resolvable.
Qed.

(** Witness of C5: the other vehicle (id 1) has no state. *)
Lemma C5_missing_state_returns_nan_witness :
  @compute example_runtime
    (scene (Some (vehicle 0 10 0)) None (Some two_pi) (Some two_pi) false (Ret 20))
    constant_acceleration 1 0 true used
  = (Ret (Some nan), logged (LogNotValid 1 0) true used).
Proof.
  apply C5_missing_state_returns_nan. right. reflexivity.
Defined.

(** C7 (short-circuit).  When both states are there and the same-lanelet
    exception check with expected value 0.0 holds, [compute] returns exactly
    0.0, which the check has stored; neither the lanelet, nor the
    orientations, nor the headway measure, nor the configured model are
    consulted. *)
Theorem C7_same_lanelet_exception_returns_zero :
  forall (R : Runtime) (sc : Scenario) (cfg : Configuration)
         (vehicle_id time_step : Z) (verbose : bool) (m : Measure),
    both_states_resolvable sc vehicle_id time_step = true ->
    same_lanelet_exception sc vehicle_id time_step = true ->
    compute sc cfg vehicle_id time_step verbose m
    = (Ret (Some 0), stored 0 verbose (logged (LogException 0) verbose m)).
Proof.
  intros R sc cfg vehicle_id time_step verbose m Hvalid Hexcept.
  now apply compute_excepted.
Qed.

(** Witness of C7: the exception applies; the headway measure would have
    raised had it been called. *)
Lemma C7_same_lanelet_exception_returns_zero_witness :
  @compute example_runtime
    (scene (Some (vehicle 0 10 0)) (Some (vehicle 20 5 0)) (Some two_pi)
       (Some two_pi) true (Raise ValueError))
    constant_acceleration 1 0 true used
  = (Ret (Some 0), stored 0 true (logged (LogException 0) true used)).
Proof.
  apply C7_same_lanelet_exception_returns_zero; reflexivity.
Defined.

(** Every return path but the one of the failed validation assigns
    [self.value] and returns it: a call that passes the validation and
    returns has assigned [self.value] exactly once, and the value it leaves
    is the value it returns; a call that raises has assigned nothing. *)
Lemma value_written_once_by_valid_calls `{Runtime} (sc : Scenario)
    (cfg : Configuration) (vehicle_id time_step : Z) (verbose : bool)
    (m : Measure) :
  both_states_resolvable sc vehicle_id time_step = true ->
  match compute sc cfg vehicle_id time_step verbose m with
  | (Ret v, m') => writes m' = S (writes m) /\ value m' = v
  | (Raise _, m') => writes m' = writes m /\ value m' = value m
  end.
Proof.
  intros V. destruct (same_lanelet_exception sc vehicle_id time_step) eqn:X.
  - rewrite compute_excepted by assumption. now split.
  - rewrite compute_main by assumption. unfold bind.
    pose proof (raw_required_acceleration_measure sc cfg vehicle_id
                  time_step verbose m) as [Hv Hw].
    destruct (raw_required_acceleration sc cfg vehicle_id time_step verbose m)
      as [[a_req|e] m1]; cbn [snd] in Hv, Hw; [|now split].
    pose proof (post_process_measure a_req verbose m1) as Hp.
    destruct (post_process a_req verbose m1) as [[v|e] m2].
    + destruct Hp as [Hp1 Hp2]. split; congruence.
    + subst m2. now split.
Qed.



(** C10 (determinism).  What [compute] returns or raises is determined by
    the scenario, the configuration, the vehicle and the time step: it
    depends neither on the state of the measure object the call starts
    from, nor on [verbose], provided the headway measure's outcome does not
    depend on [verbose] either. *)
Theorem C10_result_independent_of_verbose_and_measure :
  forall (R : Runtime) (sc : Scenario) (cfg : Configuration)
         (vehicle_id time_step : Z) (verbose1 verbose2 : bool)
         (m1 m2 : Measure),
    HW_compute sc vehicle_id time_step verbose1
    = HW_compute sc vehicle_id time_step verbose2 ->
    fst (compute sc cfg vehicle_id time_step verbose1 m1)
    = fst (compute sc cfg vehicle_id time_step verbose2 m2).
Proof.
  intros R sc cfg vehicle_id time_step verbose1 verbose2 m1 m2 Hhw.
  destruct (both_states_resolvable sc vehicle_id time_step) eqn:V.
  - destruct (same_lanelet_exception sc vehicle_id time_step) eqn:X.
    + now rewrite !compute_excepted.
    + rewrite !compute_main by assumption. unfold bind.
      pose proof (raw_required_acceleration_outcome sc cfg vehicle_id
                    time_step verbose1 verbose2 m1 m2 Hhw) as Hraw.
      destruct (raw_required_acceleration sc cfg vehicle_id time_step verbose1 m1)
        as [[a1|e1] m1'];
        destruct (raw_required_acceleration sc cfg vehicle_id time_step verbose2 m2)
          as [[a2|e2] m2']; cbn [fst] in Hraw; try discriminate.
      * injection Hraw as ->. apply post_process_outcome.
      * injection Hraw as ->. reflexivity.
  - now rewrite !compute_invalid.
Qed.

(** Witness of C10: a second call, silent and on the measure object the
    first call left, returns what the first, verbose, call returned. *)
Lemma C10_result_independent_of_verbose_and_measure_witness :
  fst (@compute example_runtime (following (Some two_pi) (Ret 20))
         constant_acceleration 1 0 true fresh)
  = fst (@compute example_runtime (following (Some two_pi) (Ret 20))
           constant_acceleration 1 0 false
           (snd (@compute example_runtime (following (Some two_pi) (Ret 20))
                   constant_acceleration 1 0 true fresh))).
Proof.
  apply C10_result_independent_of_verbose_and_measure. reflexivity.
Defined.

(** ** Zero divisors and NaN headways in the kinematic models *)







(** A divisor that is small but not zero is divided by: with a relative
    distance of 2^-1074 the quotient overflows to infinity and the raw
    required acceleration of the constant-acceleration model is minus
    infinity, by IEEE arithmetic alone. *)
Lemma kinematic_model_near_zero_distance :
  fst (kinematic_model 1 0 0x1p-1074 10 5 false used) = Ret neg_infinity.
Proof. vm_compute. reflexivity. Qed.






(** ** Orientations that are false *)

(** Whenever one of the two orientations is not true, be it [None] or a
    zero, lines 49-92 yield 0.0 and consult nothing else. *)
Lemma raw_required_acceleration_default `{Runtime} (sc : Scenario)
    (cfg : Configuration) (vehicle_id time_step : Z) (verbose : bool)
    (m : Measure) (ego other : State) (lanelet_id : Z) (lanelets : list Z) :
  state_at_time sc (ego_id sc) time_step = Some ego ->
  state_at_time sc vehicle_id time_step = Some other ->
  find_lanelet_by_position sc (position ego) = lanelet_id :: lanelets ->
  PyFloat.truthy
    (snd (compute_lanelet_width_orientation sc lanelet_id (position ego))) = false
  \/ PyFloat.truthy
       (snd (compute_lanelet_width_orientation sc lanelet_id (position other))) = false ->
  raw_required_acceleration sc cfg vehicle_id time_step verbose m = (Ret 0, m).
Proof.
  intros Eego Eother L T.
  unfold raw_required_acceleration, state_of, first_lanelet, bind, lift.
  rewrite Eego. cbn beta iota. rewrite L. cbn beta iota.
  rewrite Eother. cbn beta iota.
  destruct T as [-> | ->]; [reflexivity|].
  now rewrite orb_true_r.
Qed.

(** C3 (zero orientation, the source against the specification).  In the
    scenario of the spec's example (ego velocity 10, other velocity 5 and
    acceleration 0, same lanelet), with both projections defined and a
    lanelet orientation of exactly 0.0, [compute] takes the
    out-of-projection-domain default: whatever the configured model and the
    headway (even a headway measure that raises), it stores and returns 0.0,
    exactly as when the projections are undefined.  With the orientation
    2 pi, whose cosine is 1 as well, the constant-acceleration model is
    evaluated and the call stores the double nearest to -0.63. *)
Theorem C3_zero_orientation_takes_default :
  forall (cfg : Configuration) (verbose : bool) (m : Measure)
         (headway : outcome float),
    PyFloat.truthy (Some 0) = false
    /\ @compute example_runtime (following (Some 0) headway) cfg 1 0 verbose m
       = (Ret (Some 0), stored 0 verbose m)
    /\ @compute example_runtime (following None headway) cfg 1 0 verbose m
       = (Ret (Some 0), stored 0 verbose m)
    /\ @compute example_runtime (following (Some two_pi) (Ret 20))
         constant_acceleration 1 0 verbose m
       = (Ret (Some (-0x1.428f5c28f5c29p-1)),
          stored (-0x1.428f5c28f5c29p-1) verbose
            (logged (LogRelativeVelocity (-5)) verbose m)).
Proof.
  intros cfg verbose m headway.
  assert (Hdefault : forall o, PyFloat.truthy o = false ->
            @compute example_runtime (following o headway) cfg 1 0 verbose m
            = (Ret (Some 0), stored 0 verbose m)).
  { intros o To.
    rewrite compute_main by reflexivity. unfold bind.
    rewrite (@raw_required_acceleration_default example_runtime
               (following o headway) cfg 1 0 verbose m
               (vehicle 0 10 0) (vehicle 20 5 0) 7 [])
      by (try reflexivity; left; exact To).
    rewrite post_process_rounds by reflexivity.
    replace (@int_round example_runtime 0 2) with (@Ret float 0)
      by (vm_compute; reflexivity).
    reflexivity. }
  split; [reflexivity|]. split; [now apply Hdefault|].
  split; [now apply Hdefault|].
  rewrite (@compute_kinematic example_runtime (following (Some two_pi) (Ret 20))
             constant_acceleration 1 0 verbose m 0 20 10 5)
    by (vm_compute; reflexivity).
  unfold bind. rewrite kinematic_model_constant_source.
  change (let? sq := PyFloat.pow2 (5 - 10) in
          let? q := PyFloat.div sq (2 * 20) in
          Ret (PyFloat.min (0 - q) 0)) with (Ret (-0.625)).
  cbn beta iota. rewrite post_process_rounds by reflexivity.
  change (5 - 10) with (-5).
  replace (@int_round example_runtime (-0.625) 2)
    with (Ret (-0x1.428f5c28f5c29p-1)) by (vm_compute; reflexivity).
  reflexivity.
Qed.

(** * Further properties of [ALongReq.compute] (lines 40-100) *)

(** ** Squares and their sums are never negative *)

Lemma signed_false_not_negative (f : spec_float) :
  signed false f -> not_negative f = true.
Proof. destruct f as [s | s | | s m e]; simpl; try tauto; now intros ->. Qed.

Lemma SFmul_self_not_negative (f : spec_float) :
  not_negative (SFmul prec emax f f) = true.
Proof.
  destruct f as [s | s | | s m e]; try (destruct s; exact eq_refl);
    try exact eq_refl.
  apply signed_false_not_negative. cbn [SFmul].
  replace (xorb s s) with false by (now destruct s).
  apply binary_round_aux_signed. apply Pos2Z.is_nonneg.
Qed.

Lemma not_negative_cases (f : spec_float) :
  not_negative f = true ->
  f = S754_nan \/ (exists s, f = S754_zero s) \/ f = S754_infinity false
  \/ exists m e, f = S754_finite false m e.
Proof.
  destruct f as [s | s | | s m e]; try destruct s; try discriminate; eauto 6.
Qed.

Lemma SFadd_not_negative (f g : spec_float) :
  not_negative f = true -> not_negative g = true ->
  not_negative (SFadd prec emax f g) = true.
Proof.
  intros Hf Hg.
  destruct (not_negative_cases f Hf) as [-> | [[s ->] | [-> | (m & e & ->)]]];
    destruct (not_negative_cases g Hg) as [-> | [[s' ->] | [-> | (m' & e' & ->)]]];
    try exact eq_refl; try (destruct s; exact eq_refl);
    try (destruct s'; exact eq_refl);
    try (destruct s, s'; exact eq_refl).
  apply signed_false_not_negative. cbn [SFadd cond_Zopp]. 
  unfold binary_normalize. cbn [Z.add].
  unfold binary_round. destruct (shl_align _ _ _) as [mz ez].
  apply binary_round_aux_signed. apply Pos2Z.is_nonneg.
Qed.

(** [math.sqrt] never fails on a sum of two squares. *)
Lemma sqrt_of_squares_returns (x y : float) :
  PyFloat.math_sqrt (x * x + y * y) = Ret (sqrt (x * x + y * y)).
Proof.
  unfold PyFloat.math_sqrt.
  assert (N : not_negative (Prim2SF (x * x + y * y)) = true).
  { rewrite add_spec, !mul_spec.
    apply SFadd_not_negative; apply SFmul_self_not_negative. }
  rewrite ltb_spec. change (Prim2SF 0) with (S754_zero false).
  unfold not_negative in N. apply negb_true_iff in N. now rewrite N.
Qed.

Lemma along_lanelet_raises `{Runtime} (x y : float) (orientation : option float)
    (e : exn) :
  along_lanelet x y orientation = Raise e ->
  e = OverflowError
  \/ (e = ValueError
      /\ exists o, orientation = Some o /\ is_infinity o = true)
  \/ (e = TypeError /\ orientation = None).
Proof.
  unfold along_lanelet.
  destruct (pow2_cases x) as [-> | ->]; cbn [obind];
    [|intros [= <-]; now left].
  destruct (pow2_cases y) as [-> | ->]; cbn [obind];
    [|intros [= <-]; now left].
  rewrite sqrt_of_squares_returns. cbn [obind]. unfold math_cos.
  destruct orientation as [o|]; cbn [obind].
  - destruct (is_infinity o) eqn:I; cbn [obind]; [|discriminate].
    intros [= <-]. right. left. split; [reflexivity|]. now exists o.
  - intros [= <-]. right. right. now split.
Qed.



(** X1 (orientations that are not true).  When the call passes the
    validation and the exception check, the ego vehicle is on a lanelet and
    one of the two orientations is [None] or a zero, [compute] consults
    neither the velocities and accelerations, nor the headway measure, nor
    the configured model: its outcome is the outcome of
    [int_round(0.0, 2)]. *)
Theorem X1_default_when_an_orientation_is_not_true :
  forall (R : Runtime) (sc : Scenario) (cfg : Configuration)
         (vehicle_id time_step : Z) (verbose : bool) (m : Measure)
         (ego other : State) (lanelet_id : Z) (lanelets : list Z),
    state_at_time sc (ego_id sc) time_step = Some ego ->
    state_at_time sc vehicle_id time_step = Some other ->
    same_lanelet_exception sc vehicle_id time_step = false ->
    find_lanelet_by_position sc (position ego) = lanelet_id :: lanelets ->
    PyFloat.truthy
      (snd (compute_lanelet_width_orientation sc lanelet_id (position ego))) = false
    \/ PyFloat.truthy
         (snd (compute_lanelet_width_orientation sc lanelet_id (position other))) = false ->
    compute sc cfg vehicle_id time_step verbose m
    = match int_round 0 2 with
      | Ret r => (Ret (Some r), stored r verbose m)
      | Raise e => (Raise e, m)
      end.
Proof.
  intros R sc cfg vehicle_id time_step verbose m ego other l ls
         Eego Eother X L T.
  rewrite compute_main;
    [| unfold both_states_resolvable; now rewrite Eego, Eother | assumption].
  unfold bind.
  rewrite (raw_required_acceleration_default sc cfg vehicle_id time_step
             verbose m ego other l ls Eego Eother L T).
  now apply post_process_rounds.
Qed.

(** Witness of X1: undefined projections and a headway measure that would
    raise. *)
Lemma X1_default_when_an_orientation_is_not_true_witness :
  @compute example_runtime (following None (Raise ValueError))
    piecewise_constant 1 0 true fresh
  = match @int_round example_runtime 0 2 with
    | Ret r => (Ret (Some r), stored r true fresh)
    | Raise e => (Raise e, fresh)
    end.
Proof.
  apply (X1_default_when_an_orientation_is_not_true example_runtime
           (following None (Raise ValueError)) piecewise_constant 1 0 true
           fresh (vehicle 0 10 0) (vehicle 20 5 0) 7%Z []);
    try reflexivity.
  left. reflexivity.
Defined.

(** X2 (ego vehicle on no lanelet).  When the call passes the validation
    and the exception check and no lanelet contains the position of the ego
    vehicle, [lanelet_id[0]] raises [IndexError]; the measure object is left
    as it was. *)
Theorem X2_ego_on_no_lanelet_raises_index_error :
  forall (R : Runtime) (sc : Scenario) (cfg : Configuration)
         (vehicle_id time_step : Z) (verbose : bool) (m : Measure)
         (ego other : State),
    state_at_time sc (ego_id sc) time_step = Some ego ->
    state_at_time sc vehicle_id time_step = Some other ->
    same_lanelet_exception sc vehicle_id time_step = false ->
    find_lanelet_by_position sc (position ego) = [] ->
    compute sc cfg vehicle_id time_step verbose m = (Raise IndexError, m).
Proof.
  intros R sc cfg vehicle_id time_step verbose m ego other Eego Eother X L.
  rewrite compute_main;
    [| unfold both_states_resolvable; now rewrite Eego, Eother | assumption].
  unfold bind at 1.
  unfold raw_required_acceleration, state_of, first_lanelet, bind, lift.
  rewrite Eego. cbn beta iota. now rewrite L.
Qed.

Lemma X2_ego_on_no_lanelet_raises_index_error_witness :
  @compute example_runtime (off_road (following (Some two_pi) (Ret 20)))
    constant_acceleration 1 0 true used
  = (Raise IndexError, used).
Proof.
  apply (X2_ego_on_no_lanelet_raises_index_error example_runtime
           (off_road (following (Some two_pi) (Ret 20))) constant_acceleration
           1 0 true used (vehicle 0 10 0) (vehicle 20 5 0));
    reflexivity.
Defined.

(** X3 (failure of the headway measure).  When the call reaches line 70
    and [HW.compute] raises, [compute] raises the same exception: nothing is
    caught, nothing is stored and nothing is logged. *)
Theorem X3_headway_exception_propagates :
  forall (R : Runtime) (sc : Scenario) (cfg : Configuration)
         (vehicle_id time_step : Z) (verbose : bool) (m : Measure)
         (ego other : State) (lanelet_id : Z) (lanelets : list Z)
         (a_obj : float) (e : exn),
    state_at_time sc (ego_id sc) time_step = Some ego ->
    state_at_time sc vehicle_id time_step = Some other ->
    same_lanelet_exception sc vehicle_id time_step = false ->
    find_lanelet_by_position sc (position ego) = lanelet_id :: lanelets ->
    PyFloat.truthy
      (snd (compute_lanelet_width_orientation sc lanelet_id (position ego))) = true ->
    PyFloat.truthy
      (snd (compute_lanelet_width_orientation sc lanelet_id (position other))) = true ->
    along_lanelet (acceleration other) (acceleration_y other)
      (snd (compute_lanelet_width_orientation sc lanelet_id (position other)))
    = Ret a_obj ->
    HW_compute sc vehicle_id time_step verbose = Raise e ->
    compute sc cfg vehicle_id time_step verbose m = (Raise e, m).
Proof.
  intros R sc cfg vehicle_id time_step verbose m ego other l ls a_obj e
         Eego Eother X L T1 T2 A H.
  rewrite compute_main;
    [| unfold both_states_resolvable; now rewrite Eego, Eother | assumption].
  unfold bind at 1.
  unfold raw_required_acceleration, state_of, first_lanelet, bind, lift.
  rewrite Eego. cbn beta iota. rewrite L. cbn beta iota.
  rewrite Eother. cbn beta iota. rewrite T1, T2. cbn [negb orb].
  unfold longitudinal_inputs, state_of. rewrite Eother. cbn [obind].
  rewrite A. cbn [obind]. now rewrite H.
Qed.

Lemma X3_headway_exception_propagates_witness :
  @compute example_runtime (following (Some two_pi) (Raise ValueError))
    constant_acceleration 1 0 true used
  = (Raise ValueError, used).
Proof.
  apply (X3_headway_exception_propagates example_runtime
           (following (Some two_pi) (Raise ValueError)) constant_acceleration
           1 0 true used (vehicle 0 10 0) (vehicle 20 5 0) 7%Z [] 0 ValueError);
    reflexivity.
Defined.

(** X5 (the clamp is idle in the constant-acceleration configuration).
    The raw value of the constant-acceleration model is a [min(..., 0.0)]
    and is never above zero: on every call that reaches the kinematic-model
    step with [acceleration_mode = 1] and gets a raw value, the test
    [a_req > 0] fails and the outcome of [compute] is the outcome of
    [int_round] on the raw value. *)
Theorem X5_constant_acceleration_never_clamps :
  forall (R : Runtime) (sc : Scenario) (cfg : Configuration)
         (vehicle_id time_step : Z) (verbose : bool) (m : Measure)
         (a_obj x_rel v_ego_long v_other_long r : float),
    kinematic_step_inputs sc vehicle_id time_step verbose
    = Some (a_obj, x_rel, v_ego_long, v_other_long) ->
    acceleration_mode cfg = 1%Z ->
    fst (kinematic_model 1 a_obj x_rel v_ego_long v_other_long verbose m) = Ret r ->
    PyFloat.gt0 r = false
    /\ compute sc cfg vehicle_id time_step verbose m
       = match int_round r 2 with
         | Ret v =>
             (Ret (Some v),
              stored v verbose
                (logged (LogRelativeVelocity (v_other_long - v_ego_long)) verbose m))
         | Raise e =>
             (Raise e,
              logged (LogRelativeVelocity (v_other_long - v_ego_long)) verbose m)
         end.
Proof.
  intros R sc cfg vehicle_id time_step verbose m a_obj x_rel v_e v_o r
         Hin Hmode Hraw.
  assert (G : PyFloat.gt0 r = false).
  { rewrite kinematic_model_constant_source in Hraw. cbn [fst] in Hraw.
    unfold obind in Hraw.
    destruct (PyFloat.pow2 _) as [sq|e]; [|discriminate].
    destruct (PyFloat.div _ _) as [q|e]; [|discriminate].
    injection Hraw as <-. apply min_zero_not_positive. }
  split; [exact G|].
  rewrite (compute_kinematic _ _ _ _ _ _ _ _ _ _ Hin), Hmode. unfold bind.
  rewrite kinematic_model_constant_source in *. cbn [fst] in Hraw.
  rewrite Hraw. now apply post_process_rounds.
Qed.

(** Witness of X5: the spec's example gives the raw value -0.625. *)
Lemma X5_constant_acceleration_never_clamps_witness :
  PyFloat.gt0 (-0.625) = false
  /\ @compute example_runtime (following (Some two_pi) (Ret 20))
       constant_acceleration 1 0 true fresh
     = match @int_round example_runtime (-0.625) 2 with
       | Ret v =>
           (Ret (Some v),
            stored v true (logged (LogRelativeVelocity (5 - 10)) true fresh))
       | Raise e =>
           (Raise e, logged (LogRelativeVelocity (5 - 10)) true fresh)
       end.
Proof.
  apply (X5_constant_acceleration_never_clamps example_runtime
           (following (Some two_pi) (Ret 20)) constant_acceleration 1 0 true
           fresh 0 20 10 5 (-0.625)).
  - vm_compute. reflexivity.
  - reflexivity.
  - vm_compute. reflexivity.
Defined.

(** ** The exceptions [compute] can raise *)

Lemma kinematic_model_raises (mode : Z)
    (a_obj x_rel v_ego_long v_other_long : float) (verbose : bool)
    (m : Measure) (e : exn) :
  fst (kinematic_model mode a_obj x_rel v_ego_long v_other_long verbose m) = Raise e ->
  e = OverflowError \/ e = ZeroDivisionError.
Proof.
  unfold kinematic_model. destruct (mode =? 1)%Z.
  - unfold bind, print_and_log_info, lift. cbn [fst].
    destruct (pow2_cases (v_other_long - v_ego_long)) as [-> | ->];
      cbn [obind]; [|intros [= <-]; now left].
    unfold PyFloat.div. destruct (_ =? 0); cbn [obind]; [|discriminate].
    intros [= <-]. now right.
  - unfold lift. cbn [fst].
    destruct (pow2_cases v_ego_long) as [-> | ->]; cbn [obind];
      [|intros [= <-]; now left].
    destruct (pow2_cases v_other_long) as [-> | ->]; cbn [obind];
      [|intros [= <-]; now left].
    unfold PyFloat.div. destruct (_ =? 0); [|discriminate].
    intros [= <-]. now right.
Qed.

Lemma along_lanelet_raises_own `{Runtime} (x y : float)
    (orientation : option float) (e : exn) :
  PyFloat.truthy orientation = true ->
  along_lanelet x y orientation = Raise e ->
  own_exception e.
Proof.
  intros T A. unfold own_exception.
  destruct (along_lanelet_raises x y orientation e A)
    as [-> | [[-> _] | [_ ->]]]; [tauto | tauto | discriminate].
Qed.

Lemma raw_required_acceleration_raises `{Runtime} (sc : Scenario)
    (cfg : Configuration) (vehicle_id time_step : Z) (verbose : bool)
    (m m' : Measure) (e : exn) :
  both_states_resolvable sc vehicle_id time_step = true ->
  raw_required_acceleration sc cfg vehicle_id time_step verbose m = (Raise e, m') ->
  own_exception e \/ HW_compute sc vehicle_id time_step verbose = Raise e.
Proof.
  unfold both_states_resolvable. intros V.
  destruct (state_at_time sc (ego_id sc) time_step) as [ego|] eqn:Eego;
    [|discriminate].
  destruct (state_at_time sc vehicle_id time_step) as [other|] eqn:Eother;
    [|discriminate].
  unfold raw_required_acceleration, state_of, first_lanelet, bind, lift.
  rewrite Eego. cbn beta iota.
  destruct (find_lanelet_by_position sc (position ego)) as [|l ls].
  { intros [= <- _]. left. unfold own_exception. tauto. }
  cbn beta iota. rewrite Eother. cbn beta iota.
  destruct (PyFloat.truthy (snd (compute_lanelet_width_orientation sc l (position ego))))
    eqn:T1; [|discriminate].
  destruct (PyFloat.truthy (snd (compute_lanelet_width_orientation sc l (position other))))
    eqn:T2; [|discriminate].
  cbn [negb orb].
  unfold longitudinal_inputs, state_of. rewrite Eego, Eother. cbn [obind].
  destruct (along_lanelet (acceleration other) _ _) as [a_obj|e1] eqn:A1;
    cbn [obind].
  2:{ intros [= <- _]. left. now apply (along_lanelet_raises_own _ _ _ _ T2 A1). }
  destruct (HW_compute sc vehicle_id time_step verbose) as [x_rel|e2];
    cbn [obind].
  2:{ intros [= <- _]. now right. }
  destruct (along_lanelet (velocity ego) _ _) as [v_e|e3] eqn:A3; cbn [obind].
  2:{ intros [= <- _]. left. now apply (along_lanelet_raises_own _ _ _ _ T1 A3). }
  destruct (along_lanelet (velocity other) _ _) as [v_o|e4] eqn:A4; cbn [obind].
  2:{ intros [= <- _]. left. now apply (along_lanelet_raises_own _ _ _ _ T2 A4). }
  intros K. left.
  assert (Hk : fst (kinematic_model (acceleration_mode cfg) a_obj x_rel v_e v_o
                      verbose m) = Raise e) by now rewrite K.
  unfold own_exception.
  destruct (kinematic_model_raises _ _ _ _ _ _ _ _ Hk) as [-> | ->]; tauto.
Qed.

(** X6 (what [compute] can raise).  Nothing is caught and nothing else is
    raised: an exception of a call is an [IndexError], a [ValueError], an
    [OverflowError] or a [ZeroDivisionError] of its own indexing and
    arithmetic, or it was raised by the headway measure or by [int_round].
    In particular no call fails on a missing state or on an orientation
    that is [None]. *)
Theorem X6_exceptions_of_compute :
  forall (R : Runtime) (sc : Scenario) (cfg : Configuration)
         (vehicle_id time_step : Z) (verbose : bool) (m m' : Measure)
         (e : exn),
    compute sc cfg vehicle_id time_step verbose m = (Raise e, m') ->
    own_exception e
    \/ HW_compute sc vehicle_id time_step verbose = Raise e
    \/ exists x, int_round x 2 = Raise e.
Proof.
  intros R sc cfg vehicle_id time_step verbose m m' e.
  destruct (both_states_resolvable sc vehicle_id time_step) eqn:V.
  - destruct (same_lanelet_exception sc vehicle_id time_step) eqn:X.
    + rewrite compute_excepted by assumption. discriminate.
    + rewrite compute_main by assumption. unfold bind.
      destruct (raw_required_acceleration sc cfg vehicle_id time_step verbose m)
        as [[a_req|e0] m1] eqn:Eraw.
      * destruct (PyFloat.gt0 a_req) eqn:G.
        -- rewrite post_process_positive by assumption. discriminate.
        -- rewrite post_process_rounds by assumption.
           destruct (int_round a_req 2) as [r|e1] eqn:Er; [discriminate|].
           intros [= <- _]. right. right. now exists a_req.
      * intros [= <- _].
        destruct (raw_required_acceleration_raises _ _ _ _ _ _ _ _ V Eraw);
          tauto.
  - rewrite compute_invalid by assumption. discriminate.
Qed.

(** Witness of X6: the division by a zero headway. *)
Lemma X6_exceptions_of_compute_witness :
  own_exception ZeroDivisionError
  \/ HW_compute (following (Some two_pi) (Ret 0)) 1 0 false = Raise ZeroDivisionError
  \/ exists x, @int_round example_runtime x 2 = Raise ZeroDivisionError.
Proof.
  apply (X6_exceptions_of_compute example_runtime
           (following (Some two_pi) (Ret 0)) constant_acceleration 1 0 false
           used (logged (LogRelativeVelocity (-5)) false used)).
  vm_compute. reflexivity.
Defined.

(** ** The sign of the piecewise-constant-motion model *)

Lemma SFdiv_finite_signed (sx sy : bool) (mx my : positive) (ex ey : Z) :
  signed (xorb sx sy)
    (SFdiv prec emax (S754_finite sx mx ex) (S754_finite sy my ey)).
Proof.
  cbn [SFdiv]. unfold SFdiv_core_binary.
  set (s := (_ - _ - _)%Z).
  set (m' := match s with Z0 => Zpos mx | Zpos _ => Z.shiftl (Zpos mx) s | Zneg _ => 0%Z end).
  assert (Hm' : (0 <= m')%Z).
  { subst m'. destruct s; try lia. apply Z.shiftl_nonneg. lia. }
  pose proof (Z.div_pos m' (Zpos my) Hm' ltac:(lia)) as Hq.
  unfold Z.div in Hq. destruct (Z.div_eucl m' (Zpos my)) as [q r].
  now apply binary_round_aux_signed.
Qed.

Lemma signed_true_not_positive (f : spec_float) :
  signed true f -> not_positive f = true.
Proof. destruct f as [s | s | | s m e]; simpl; try tauto; now intros ->. Qed.

(** The opposite of a number that is not negative is not positive. *)
Lemma SFopp_not_positive (f : spec_float) :
  not_negative f = true -> not_positive (SFopp f) = true.
Proof.
  destruct f as [s | s | | s m e]; try destruct s; try discriminate;
    intros _; exact eq_refl.
Qed.

Lemma not_positive_cases (f : spec_float) :
  not_positive f = true ->
  f = S754_nan \/ (exists s, f = S754_zero s) \/ f = S754_infinity true
  \/ exists m e, f = S754_finite true m e.
Proof.
  destruct f as [s | s | | s m e]; try destruct s; try discriminate; eauto 6.
Qed.

(** Dividing a number that is not positive by a positive number gives a
    number that is not positive; dividing it by a negative number gives a
    number that is not negative. *)
Lemma SFdiv_not_positive (f g : spec_float) :
  not_positive f = true ->
  (SFltb (S754_zero false) g = true ->
   not_positive (SFdiv prec emax f g) = true)
  /\ (SFltb g (S754_zero false) = true ->
      not_negative (SFdiv prec emax f g) = true).
Proof.
  intros Hf.
  destruct (not_positive_cases f Hf) as [-> | [[s ->] | [-> | (m & e & ->)]]];
    destruct g as [s' | s' | | s' m' e']; try destruct s';
    split; intros Hg; try discriminate Hg; try exact eq_refl;
    try (destruct s; exact eq_refl).
  - apply signed_false_not_negative.
    apply (SFdiv_finite_signed true true).
  - apply signed_true_not_positive.
    apply (SFdiv_finite_signed true false).
Qed.

(** X16 (sign of the piecewise-constant-motion model).  Whenever the
    piecewise model yields a raw value: if its divisor
    [2 * (x_rel - v_other_long ** 2 / 2 * a_obj)] is above zero, the raw
    value is never above zero, so that the clamp does not fire and the
    rounded raw value is stored; if the divisor is below zero, the raw value
    is never below zero, so that a braking demand is never stored. *)
Theorem X16_sign_of_piecewise_model :
  forall (mode : Z) (a_obj x_rel v_ego_long v_other_long r : float)
         (verbose : bool) (m : Measure),
    mode <> 1%Z ->
    fst (kinematic_model mode a_obj x_rel v_ego_long v_other_long verbose m)
    = Ret r ->
    ((0 <? divisor mode a_obj x_rel v_other_long) = true ->
     PyFloat.gt0 r = false)
    /\ ((divisor mode a_obj x_rel v_other_long <? 0) = true ->
        (r <? 0) = false).
Proof.
  intros mode a_obj x_rel v_e v_o r verbose m Hmode Hraw.
  destruct (kinematic_model mode a_obj x_rel v_e v_o verbose m) as [o m'] eqn:K.
  cbn [fst] in Hraw. subst o.
  destruct (kinematic_model_piecewise_source _ _ _ _ _ _ _ _ _ Hmode K)
    as [-> _].
  unfold divisor. apply Z.eqb_neq in Hmode. rewrite Hmode.
  set (d := 2 * (x_rel - v_o * v_o / 2 * a_obj)).
  assert (Hnum : not_positive (Prim2SF (- (v_e * v_e))) = true).
  { rewrite opp_spec, mul_spec. apply SFopp_not_positive.
    apply SFmul_self_not_negative. }
  destruct (SFdiv_not_positive _ (Prim2SF d) Hnum) as [Hpos Hneg].
  unfold PyFloat.gt0. rewrite !ltb_spec, div_spec.
  change (Prim2SF 0) with (S754_zero false).
  split; intros Hd.
  - specialize (Hpos Hd). unfold not_positive in Hpos.
    now apply negb_true_iff in Hpos.
  - specialize (Hneg Hd). unfold not_negative in Hneg.
    now apply negb_true_iff in Hneg.
Qed.

(** Witness of X16: the divisor 2 * (20 - 16 / 2 * 2) = 8 is above zero
    and the raw value -12.5 is not. *)
Lemma X16_sign_of_piecewise_model_witness :
  ((0 <? divisor 2 2 20 4) = true -> PyFloat.gt0 (-12.5) = false)
  /\ ((divisor 2 2 20 4 <? 0) = true -> (-12.5 <? 0) = false).
Proof.
  apply (X16_sign_of_piecewise_model 2 2 20 10 4 (-12.5) false fresh).
  - discriminate.
  - reflexivity.
Defined.

(** * Drawing helpers (visualization.py) *)

(** ** List indexing and [plot_limits_from_state_list] *)

Lemma list_index_in_range {A : Type} (l : list A) (i : Z) :
  (- Z.of_nat (length l) <= i < Z.of_nat (length l))%Z ->
  exists a,
    nth_error l (Z.to_nat (i mod Z.of_nat (length l))) = Some a
    /\ list_index l i = Ret a.
Proof.
  intros Hi. unfold list_index.
  set (n := Z.of_nat (length l)) in *.
  assert (Hj : (if (i <? 0)%Z then (i + n)%Z else i) = (i mod n)%Z).
  { destruct (i <? 0)%Z eqn:L.
    - apply Z.ltb_lt in L.
      rewrite <- (Z.mod_small (i + n) n) by lia.
      rewrite <- (Z_mod_plus_full i 1 n). f_equal. lia.
    - apply Z.ltb_ge in L. symmetry. apply Z.mod_small. lia. }
  rewrite Hj.
  assert (Hm : (0 <= i mod n < n)%Z) by (apply Z.mod_pos_bound; lia).
  replace ((0 <=? i mod n) && (i mod n <? n))%Z with true
    by (symmetry; apply andb_true_intro; split;
        [apply Z.leb_le | apply Z.ltb_lt]; lia).
  destruct (nth_error l (Z.to_nat (i mod n))) as [a|] eqn:E.
  - exists a. now split.
  - exfalso. apply nth_error_None in E. subst n. lia.
Qed.

Lemma list_index_out_of_range {A : Type} (l : list A) (i : Z) :
  ~ (- Z.of_nat (length l) <= i < Z.of_nat (length l))%Z ->
  list_index l i = Raise IndexError.
Proof.
  intros Hi. unfold list_index.
  set (n := Z.of_nat (length l)) in *.
  destruct (i <? 0)%Z eqn:L.
  - apply Z.ltb_lt in L.
    replace ((0 <=? i + n) && (i + n <? n))%Z with false; [reflexivity|].
    symmetry. apply andb_false_intro1. apply Z.leb_gt. lia.
  - apply Z.ltb_ge in L.
    replace ((0 <=? i) && (i <? n))%Z with false; [reflexivity|].
    symmetry. apply andb_false_intro2. apply Z.ltb_ge. lia.
Qed.

(** X7 (time step out of range).  [plot_limits_from_state_list] raises
    [IndexError] exactly when the time step lies outside
    [-len(state_list), len(state_list) - 1]: always for an empty list, and
    never for a negative time step that still counts from the end. *)
Theorem X7_plot_limits_index_error :
  forall (time_step : Z) (states : list State) (margin : float),
    plot_limits_from_state_list time_step states margin = Raise IndexError
    <-> ~ (- Z.of_nat (length states) <= time_step < Z.of_nat (length states))%Z.
Proof.
  intros time_step states margin. split.
  - intros Hraise Hin.
    assert (Hlast : (- Z.of_nat (length states) <= -1 < Z.of_nat (length states))%Z)
      by lia.
    destruct (list_index_in_range states time_step Hin) as (s & _ & Es).
    destruct (list_index_in_range states (-1) Hlast) as (s1 & _ & Es1).
    unfold plot_limits_from_state_list in Hraise.
    rewrite Es, Es1 in Hraise. discriminate.
  - intros Hout. unfold plot_limits_from_state_list.
    now rewrite (list_index_out_of_range states time_step Hout).
Qed.

(** X8 (the limits).  For a time step in range, counted from the end when
    negative, the x range runs from the state of the time step minus the
    margin to the last state of the list plus the margin, whatever the time
    step, and the y range is the y position of the state of the time step
    minus and plus half the margin. *)
Theorem X8_plot_limits_value :
  forall (time_step : Z) (states : list State) (margin : float),
    (- Z.of_nat (length states) <= time_step < Z.of_nat (length states))%Z ->
    exists s last,
      nth_error states (Z.to_nat (time_step mod Z.of_nat (length states))) = Some s
      /\ nth_error states (length states - 1) = Some last
      /\ plot_limits_from_state_list time_step states margin
         = Ret [fst (position s) - margin; fst (position last) + margin;
                snd (position s) - margin / 2; snd (position s) + margin / 2].
Proof.
  intros time_step states margin Hin.
  assert (Hlast : (- Z.of_nat (length states) <= -1 < Z.of_nat (length states))%Z)
    by lia.
  destruct (list_index_in_range states time_step Hin) as (s & Ns & Es).
  destruct (list_index_in_range states (-1) Hlast) as (last & Nl & El).
  exists s, last. split; [exact Ns|]. split.
  - rewrite <- Nl. f_equal.
    rewrite <- (Z_mod_plus_full (-1) 1 (Z.of_nat (length states))).
    rewrite Z.mod_small by lia. lia.
  - unfold plot_limits_from_state_list. now rewrite Es, El.
Qed.

(** Witness of X8: the time step -2 of five states is the fourth state. *)
Lemma X8_plot_limits_value_witness :
  exists s last,
    nth_error (state_list example_prediction)
      (Z.to_nat (-2 mod Z.of_nat (length (state_list example_prediction)))) = Some s
    /\ nth_error (state_list example_prediction)
         (length (state_list example_prediction) - 1) = Some last
    /\ plot_limits_from_state_list (-2) (state_list example_prediction) 10
       = Ret [fst (position s) - 10; fst (position last) + 10;
              snd (position s) - 10 / 2; snd (position s) + 10 / 2].
Proof.
  apply (X8_plot_limits_value (-2) (state_list example_prediction) 10).
  vm_compute. split; [discriminate | reflexivity].
Defined.

(** ** The counter [zorder] and the order of the artists *)

Lemma drawn_between_refl (d : Drawing) : drawn_between d d [].
Proof.
  unfold drawn_between. rewrite app_nil_r.
  split; [reflexivity|]. split; [lia | constructor].
Qed.

Lemma drawn_between_trans (d d1 d2 : Drawing) (new1 new2 : list artist) :
  drawn_between d d1 new1 -> drawn_between d1 d2 new2 ->
  drawn_between d d2 (new1 ++ new2).
Proof.
  intros (A1 & Z1 & F1) (A2 & Z2 & F2). unfold drawn_between.
  split; [now rewrite A2, A1, app_assoc|]. split; [lia|].
  apply Forall_app. split.
  - eapply Forall_impl; [|exact F1]. cbn. intros a Ha. lia.
  - eapply Forall_impl; [|exact F2]. cbn. intros a Ha. lia.
Qed.

(** Every helper adds its artists at the counter or one below it and
    leaves the counter where it was or one higher. *)
Lemma run_call_drawn_between (c : draw_call) (d : Drawing) :
  exists new,
    drawn_between d (snd (run_call c d)) new
    /\ (zorder (snd (run_call c d)) <= zorder d + 1)%Z.
Proof.
  destruct c as [state color | obstacle time_step color alpha
                | center radius opacity color | ref_path color
                | states start color linewidth]; cbn [run_call].
  - eexists. unfold draw_state, drawn_between. cbn [snd ax zorder].
    split; [|lia]. split; [reflexivity|]. split; [lia|].
    repeat constructor; cbn [artist_zorder]; lia.
  - unfold draw_dyn_vehicle_shape.
    destruct (occupancy_at_time obstacle time_step) as [[xy | [|xy shapes]]|];
      [destruct (valid_alpha alpha) | | destruct (valid_alpha alpha) |];
      cbn [snd]; try (exists []; split; [apply drawn_between_refl | lia]).
    + eexists. unfold drawn_between. cbn [ax zorder].
      split; [|lia]. split; [reflexivity|]. split; [lia|].
      repeat constructor; cbn [artist_zorder]; lia.
    + exists []. unfold drawn_between. cbn [ax zorder]. rewrite app_nil_r.
      split; [|lia]. split; [reflexivity|]. split; [lia | constructor].
    + eexists. unfold drawn_between. cbn [ax zorder].
      split; [|lia]. split; [reflexivity|]. split; [lia|].
      apply Forall_map. apply Forall_forall. intros xy' _.
      cbn [artist_zorder]. lia.
  - unfold draw_circle. destruct (valid_alpha opacity); cbn [snd];
      [|exists []; split; [apply drawn_between_refl | lia]].
    eexists. unfold drawn_between. cbn [ax zorder].
    split; [|lia]. split; [reflexivity|]. split; [lia|].
    repeat constructor; cbn [artist_zorder]; lia.
  - eexists. unfold draw_reference_path, drawn_between. cbn [snd ax zorder].
    split; [|lia]. split; [reflexivity|]. split; [lia|].
    repeat constructor; cbn [artist_zorder]; lia.
  - unfold draw_state_list. destruct states as [|s rest]; cbn [snd].
    + exists []. split; [apply drawn_between_refl | lia].
    + destruct (trajectory_opacity _ _) as [opacity|e];
        [destruct (valid_alpha opacity)|]; cbn [snd];
        try (exists []; split; [apply drawn_between_refl | lia]).
      eexists. unfold drawn_between. cbn [ax zorder].
      split; [|lia]. split; [reflexivity|]. split; [lia|].
      repeat constructor; cbn [artist_zorder]; lia.
Qed.

Lemma run_calls_drawn_between (calls : list draw_call) :
  forall d : Drawing,
  exists new,
    drawn_between d (snd (run_calls calls d)) new
    /\ (zorder (snd (run_calls calls d)) <= zorder d + Z.of_nat (length calls))%Z.
Proof.
  induction calls as [|c rest IH]; intros d.
  - exists []. split; [apply drawn_between_refl | cbn; lia].
  - destruct (run_call_drawn_between c d) as (new1 & D1 & Z1).
    cbn [run_calls]. destruct (run_call c d) as [[u|e] d1]; cbn [snd] in *.
    + destruct (IH d1) as (new2 & D2 & Z2).
      exists (new1 ++ new2). split; [now apply (drawn_between_trans d d1)|].
      cbn [length]. lia.
    + exists new1. split; [exact D1|]. cbn [length]. lia.
Qed.

(** X9 (later calls draw on top).  In any two successive sequences of
    calls of the drawing helpers on one renderer, no artist of the second
    sequence has a lower [zorder] than an artist of the first; the counter
    never decreases and grows by at most one per call. *)
Theorem X9_later_calls_draw_on_top :
  forall (calls1 calls2 : list draw_call) (d : Drawing)
         (new1 new2 : list artist),
    ax (snd (run_calls calls1 d)) = ax d ++ new1 ->
    ax (snd (run_calls calls2 (snd (run_calls calls1 d))))
    = ax (snd (run_calls calls1 d)) ++ new2 ->
    (zorder d <= zorder (snd (run_calls calls2 (snd (run_calls calls1 d))))
     <= zorder d + Z.of_nat (length calls1 + length calls2))%Z
    /\ forall a b, In a new1 -> In b new2 ->
                   (artist_zorder a <= artist_zorder b)%Z.
Proof.
  intros calls1 calls2 d new1 new2 E1 E2.
  destruct (run_calls_drawn_between calls1 d) as (n1 & (A1 & Z1 & F1) & U1).
  destruct (run_calls_drawn_between calls2 (snd (run_calls calls1 d)))
    as (n2 & (A2 & Z2 & F2) & U2).
  rewrite A1 in E1. apply app_inv_head in E1. subst n1.
  rewrite A2 in E2. apply app_inv_head in E2. subst n2.
  split; [lia|]. intros a b Ha Hb.
  rewrite Forall_forall in F1, F2.
  specialize (F1 a Ha). specialize (F2 b Hb). cbn in F1, F2. lia.
Qed.

(** Witness of X9: two calls of [draw_state] from the initial counter 22;
    the white disc of the second call shares the [zorder] 22 with the
    coloured disc of the first. *)
Lemma X9_later_calls_draw_on_top_witness :
  (zorder initial_drawing
   <= zorder (snd (run_calls [CallDrawState (vehicle 4 1 0) TUMred]
                     (snd (run_calls [CallDrawState (vehicle 3 1 0) TUMgreen]
                             initial_drawing))))
   <= zorder initial_drawing + Z.of_nat (1 + 1))%Z
  /\ forall a b,
       In a [CirclePatch (3, 0) 0x1.eb851eb851eb8p-4 TUMgreen (Some 10) None 22;
             CirclePatch (3, 0) 0x1.999999999999ap-3 TUMwhite (Some 10) None 21] ->
       In b [CirclePatch (4, 0) 0x1.eb851eb851eb8p-4 TUMred (Some 10) None 23;
             CirclePatch (4, 0) 0x1.999999999999ap-3 TUMwhite (Some 10) None 22] ->
       (artist_zorder a <= artist_zorder b)%Z.
Proof.
  apply (X9_later_calls_draw_on_top
           [CallDrawState (vehicle 3 1 0) TUMgreen]
           [CallDrawState (vehicle 4 1 0) TUMred] initial_drawing);
    reflexivity.
Defined.

(** ** [visualize_scenario_at_time_steps] *)

Lemma sorted_app (l l' : list Z) :
  StronglySorted Z.le l -> StronglySorted Z.le l' ->
  (forall x y, In x l -> In y l' -> (x <= y)%Z) ->
  StronglySorted Z.le (l ++ l').
Proof.
  intros Hl Hl' Hle. induction Hl as [|x l Hl IH Hx]; [exact Hl'|].
  cbn [app]. constructor.
  - apply IH. intros a b Ha Hb. apply Hle; [now right | exact Hb].
  - apply Forall_app. split; [exact Hx|].
    apply Forall_forall. intros y Hy. apply Hle; [now left | exact Hy].
Qed.

Lemma sorted_constant (z : Z) (l : list artist) :
  Forall (fun a => artist_zorder a = z) l ->
  StronglySorted Z.le (map artist_zorder l).
Proof.
  induction 1 as [|a l Ha Hl IH]; cbn [map]; constructor; [exact IH|].
  apply Forall_map. eapply Forall_impl; [|exact Hl].
  cbn. intros b Hb. lia.
Qed.

(** Artists added at the counter keep the axes stacked. *)
Lemma stacked_add (z0 : Z) (d : Drawing) (new : list artist) :
  stacked z0 d ->
  Forall (fun a => artist_zorder a = zorder d) new ->
  stacked z0 {| zorder := zorder d + 1; ax := ax d ++ new |}.
Proof.
  intros (S & F & Z) Hnew. unfold stacked. cbn [ax zorder].
  split; [|split; [|lia]].
  - rewrite map_app. apply sorted_app; [exact S | now apply (sorted_constant (zorder d))|].
    intros x y Hx Hy. apply in_map_iff in Hx, Hy.
    destruct Hx as (a & <- & Ha). destruct Hy as (b & <- & Hb).
    rewrite Forall_forall in F, Hnew.
    specialize (F a Ha). specialize (Hnew b Hb). cbn in F. lia.
  - apply Forall_app. split.
    + eapply Forall_impl; [|exact F]. cbn. intros a Ha. lia.
    + eapply Forall_impl; [|exact Hnew]. cbn. intros a Ha. lia.
Qed.

Lemma draw_state_list_stacked (z0 : Z) (states : list State)
    (start : option Z) (color : TUMcolor) (linewidth : float) (d : Drawing) :
  stacked z0 d ->
  stacked z0 (snd (draw_state_list states start color linewidth d)).
Proof.
  intros H. unfold draw_state_list. destruct states as [|s rest]; [exact H|].
  destruct (trajectory_opacity _ _) as [opacity|e]; [|exact H].
  destruct (valid_alpha opacity); [|exact H].
  cbn [snd]. apply stacked_add; [exact H|]. now repeat constructor.
Qed.

Lemma draw_dyn_vehicle_shape_stacked (z0 : Z) (obs : Obstacle) (ts : Z)
    (color : TUMcolor) (alpha : float) (d : Drawing) :
  stacked z0 d ->
  stacked z0 (snd (draw_dyn_vehicle_shape obs ts color alpha d)).
Proof.
  intros H. unfold draw_dyn_vehicle_shape.
  destruct (occupancy_at_time obs ts) as [[xy | [|xy shapes]]|];
    [destruct (valid_alpha alpha) | | destruct (valid_alpha alpha) |];
    cbn [snd]; try exact H.
  - apply stacked_add; [exact H|]. now repeat constructor.
  - rewrite <- (app_nil_r (ax d)). apply stacked_add; [exact H | constructor].
  - apply stacked_add; [exact H|].
    apply Forall_map. apply Forall_forall. now intros xy' _.
Qed.

Lemma draw_shapes_in_window_stacked (z0 : Z) (obs : Obstacle)
    (time_steps : list Z) (b e : Z) :
  forall d : Drawing,
    stacked z0 d ->
    stacked z0 (snd (draw_shapes_in_window obs time_steps b e d)).
Proof.
  induction time_steps as [|ts rest IH]; intros d H; [exact H|].
  cbn [draw_shapes_in_window].
  destruct ((b - 1 <=? ts) && (ts <=? e))%Z; [|now apply IH].
  pose proof (draw_dyn_vehicle_shape_stacked z0 obs ts TUMblue 0.5 d H) as H1.
  destruct (draw_dyn_vehicle_shape obs ts TUMblue 0.5 d) as [[u|x] d1];
    cbn [snd] in *; [now apply IH | exact H1].
Qed.

Lemma draw_obstacle_in_window_stacked (z0 : Z) (obs : Obstacle)
    (time_steps : list Z) (plot_begin plot_end : Z) (d : Drawing) :
  stacked z0 d ->
  stacked z0 (snd (draw_obstacle_in_window obs time_steps plot_begin plot_end d)).
Proof.
  intros H. unfold draw_obstacle_in_window.
  destruct (prediction obs) as [p|]; [|exact H].
  pose proof (draw_state_list_stacked z0
                (trajectory_in_window p plot_begin plot_end) None TUMblue 5 d H)
    as H1.
  destruct (draw_state_list _ None TUMblue 5 d) as [[u|x] d1];
    cbn [snd] in *; [now apply draw_shapes_in_window_stacked | exact H1].
Qed.

Lemma draw_obstacles_in_window_stacked (z0 : Z) (obstacles : list Obstacle)
    (time_steps : list Z) (plot_begin plot_end : Z) :
  forall d : Drawing,
    stacked z0 d ->
    stacked z0
      (snd (draw_obstacles_in_window obstacles time_steps plot_begin plot_end d)).
Proof.
  induction obstacles as [|obs rest IH]; intros d H; [exact H|].
  cbn [draw_obstacles_in_window].
  pose proof (draw_obstacle_in_window_stacked z0 obs time_steps plot_begin
                plot_end d H) as H1.
  destruct (draw_obstacle_in_window obs time_steps plot_begin plot_end d)
    as [[u|x] d1]; cbn [snd] in *; [now apply IH | exact H1].
Qed.

(** X10 (the picture of a scenario is stacked in drawing order).  Whatever
    the obstacles and the time steps, and whether or not the call raises on
    the way, the artists that [visualize_scenario_at_time_steps] has put on
    its renderer are in non-decreasing order of [zorder], none below the
    counter the call started from, and the counter it leaves is above all
    of them. *)
Theorem X10_visualized_scenario_is_stacked :
  forall (obstacles : list Obstacle) (time_steps : list Z) (d : Drawing),
    let d' := snd (visualize_scenario_at_time_steps obstacles time_steps d) in
    StronglySorted Z.le (map artist_zorder (ax d'))
    /\ Forall (fun a => (zorder d <= artist_zorder a < zorder d')%Z) (ax d')
    /\ (zorder d <= zorder d')%Z.
Proof.
  intros obstacles time_steps d.
  assert (H0 : stacked (zorder d) {| zorder := zorder d; ax := [] |}).
  { unfold stacked. cbn [ax zorder map].
    split; [constructor|]. split; [constructor | lia]. }
  unfold visualize_scenario_at_time_steps.
  destruct (list_min time_steps) as [plot_begin|e]; [|exact H0].
  destruct (list_max time_steps) as [plot_end|e]; [|exact H0].
  now apply draw_obstacles_in_window_stacked.
Qed.

(** ** The part of a trajectory drawn for a window of time steps *)

(** X11 (trajectory and window overlap).  For a prediction whose state
    list holds one state per time step from [initial_time_step] to
    [final_time_step] and a window that shares a time step with it, the
    states drawn are exactly the states of the shared time steps, in order:
    one state per time step from the later of the two begins to the earlier
    of the two ends. *)
Theorem X11_trajectory_in_overlapping_window :
  forall (p : Prediction) (plot_begin plot_end : Z),
    Z.of_nat (length (state_list p))
    = (final_time_step p - initial_time_step p + 1)%Z ->
    (Z.max (initial_time_step p) plot_begin
     <= Z.min (final_time_step p) plot_end)%Z ->
    length (trajectory_in_window p plot_begin plot_end)
    = Z.to_nat (Z.min (final_time_step p) plot_end
                - Z.max (initial_time_step p) plot_begin + 1)
    /\ forall t,
         (Z.max (initial_time_step p) plot_begin <= t
          <= Z.min (final_time_step p) plot_end)%Z ->
         nth_error (trajectory_in_window p plot_begin plot_end)
           (Z.to_nat (t - Z.max (initial_time_step p) plot_begin))
         = nth_error (state_list p) (Z.to_nat (t - initial_time_step p)).
Proof.
  intros p plot_begin plot_end Hlen Hov.
  unfold trajectory_in_window, list_slice.
  set (b := Z.max (initial_time_step p) plot_begin) in *.
  set (e := Z.min (final_time_step p) plot_end) in *.
  set (n := Z.of_nat (length (state_list p))) in *.
  assert (Hb : (initial_time_step p <= b)%Z) by (subst b; lia).
  assert (He : (e <= final_time_step p)%Z) by (subst e; lia).
  replace (b - initial_time_step p <? 0)%Z with false
    by (symmetry; apply Z.ltb_ge; lia).
  replace (e - initial_time_step p + 1 <? 0)%Z with false
    by (symmetry; apply Z.ltb_ge; lia).
  rewrite (Z.min_l (b - initial_time_step p) n) by lia.
  rewrite (Z.min_l (e - initial_time_step p + 1) n) by lia.
  replace (e - initial_time_step p + 1 - (b - initial_time_step p))%Z
    with (e - b + 1)%Z by lia.
  split.
  - rewrite length_firstn, length_skipn. subst n. lia.
  - intros t Ht. rewrite nth_error_firstn.
    replace (Z.to_nat (t - b) <? Z.to_nat (e - b + 1))%nat with true
      by (symmetry; apply Nat.ltb_lt; lia).
    rewrite nth_error_skipn. f_equal. lia.
Qed.

(** Witness of X11: the trajectory of the time steps 3 to 7 in the window
    from 5 to 9. *)
Lemma X11_trajectory_in_overlapping_window_witness :
  length (trajectory_in_window example_prediction 5 9)
  = Z.to_nat (Z.min (final_time_step example_prediction) 9
              - Z.max (initial_time_step example_prediction) 5 + 1)
  /\ forall t,
       (Z.max (initial_time_step example_prediction) 5 <= t
        <= Z.min (final_time_step example_prediction) 9)%Z ->
       nth_error (trajectory_in_window example_prediction 5 9)
         (Z.to_nat (t - Z.max (initial_time_step example_prediction) 5))
       = nth_error (state_list example_prediction)
           (Z.to_nat (t - initial_time_step example_prediction)).
Proof.
  apply (X11_trajectory_in_overlapping_window example_prediction 5 9).
  - reflexivity.
  - vm_compute. discriminate.
Defined.

(** X12 (window that ends before the trajectory begins).  When the window
    ends two or more time steps before the prediction begins, the end index
    of the slice is negative and counts from the end of the list: the call
    draws the first states of the trajectory, all but the last
    [initial_time_step - 1 - plot_end] of them, although none of their time
    steps lies in the window. *)
Theorem X12_trajectory_before_window_wraps :
  forall (p : Prediction) (plot_begin plot_end : Z),
    (plot_begin <= plot_end)%Z ->
    (plot_end + 1 < initial_time_step p)%Z ->
    (initial_time_step p <= final_time_step p)%Z ->
    trajectory_in_window p plot_begin plot_end
    = firstn (Z.to_nat (Z.of_nat (length (state_list p))
                        - (initial_time_step p - 1 - plot_end)))
        (state_list p).
Proof.
  intros p plot_begin plot_end Hw Hbefore Hp.
  unfold trajectory_in_window, list_slice.
  set (n := Z.of_nat (length (state_list p))).
  rewrite (Z.max_l (initial_time_step p) plot_begin) by lia.
  rewrite (Z.min_r (final_time_step p) plot_end) by lia.
  replace (initial_time_step p - initial_time_step p)%Z with 0%Z by lia.
  change (0 <? 0)%Z with false. cbv beta iota.
  replace (plot_end - initial_time_step p + 1 <? 0)%Z with true
    by (symmetry; apply Z.ltb_lt; lia).
  rewrite (Z.min_l 0 n) by (subst n; lia).
  change (Z.to_nat 0) with 0%nat. cbn [skipn].
  f_equal. lia.
Qed.

(** Witness of X12: the window from 0 to 1 and the trajectory of the time
    steps 3 to 7: the states of the time steps 3 to 6 are drawn. *)
Lemma X12_trajectory_before_window_wraps_witness :
  trajectory_in_window example_prediction 0 1
  = firstn (Z.to_nat (Z.of_nat (length (state_list example_prediction))
                      - (initial_time_step example_prediction - 1 - 1)))
      (state_list example_prediction).
Proof.
  apply (X12_trajectory_before_window_wraps example_prediction 0 1);
    vm_compute; first [discriminate | reflexivity].
Defined.

(** X13 (nothing of a trajectory outside the window otherwise).  When the
    window begins after the prediction has ended, or ends exactly one time
    step before it begins, the slice is empty: [draw_state_list] returns
    at once, draws nothing and leaves the counter as it is. *)
Theorem X13_trajectory_outside_window_not_drawn :
  forall (p : Prediction) (plot_begin plot_end : Z) (d : Drawing),
    Z.of_nat (length (state_list p))
    = (final_time_step p - initial_time_step p + 1)%Z ->
    (plot_begin <= plot_end)%Z ->
    (final_time_step p < plot_begin)%Z
    \/ (plot_end + 1 = initial_time_step p)%Z ->
    trajectory_in_window p plot_begin plot_end = []
    /\ draw_state_list (trajectory_in_window p plot_begin plot_end)
         None TUMblue 5 d = (Ret tt, d).
Proof.
  intros p plot_begin plot_end d Hlen Hw Hout.
  assert (E : trajectory_in_window p plot_begin plot_end = []).
  { unfold trajectory_in_window, list_slice.
    set (n := Z.of_nat (length (state_list p))) in *.
    assert (Hn : (0 <= n)%Z) by (subst n; lia).
    destruct Hout as [Hafter | Hjust].
    - rewrite (Z.max_r (initial_time_step p) plot_begin) by lia.
      rewrite (Z.min_l (final_time_step p) plot_end) by lia.
      replace (plot_begin - initial_time_step p <? 0)%Z with false
        by (symmetry; apply Z.ltb_ge; lia).
      replace (final_time_step p - initial_time_step p + 1 <? 0)%Z with false
        by (symmetry; apply Z.ltb_ge; lia).
      rewrite (Z.min_r (plot_begin - initial_time_step p) n) by lia.
      rewrite (Z.min_r (final_time_step p - initial_time_step p + 1) n) by lia.
      replace (n - n)%Z with 0%Z by lia. reflexivity.
    - rewrite (Z.max_l (initial_time_step p) plot_begin) by lia.
      rewrite (Z.min_r (final_time_step p) plot_end) by lia.
      replace (initial_time_step p - initial_time_step p)%Z with 0%Z by lia.
      replace (plot_end - initial_time_step p + 1)%Z with 0%Z by lia.
      change (0 <? 0)%Z with false. cbv beta iota.
      rewrite (Z.min_l 0 n) by lia. reflexivity. }
  split; [exact E|]. now rewrite E.
Qed.

(** Witness of X13: the window from 8 to 9 and the trajectory of the time
    steps 3 to 7. *)
Lemma X13_trajectory_outside_window_not_drawn_witness :
  trajectory_in_window example_prediction 8 9 = []
  /\ draw_state_list (trajectory_in_window example_prediction 8 9)
       None TUMblue 5 initial_drawing = (Ret tt, initial_drawing).
Proof.
  apply (X13_trajectory_outside_window_not_drawn example_prediction 8 9
           initial_drawing).
  - reflexivity.
  - vm_compute. discriminate.
  - left. vm_compute. reflexivity.
Defined.

(** ** The subplot counters of [plot_criticality_curve] *)

Lemma subplot_of_div_mod (nr_per_row : Z) (k : nat) :
  (1 <= nr_per_row)%Z ->
  subplot_of nr_per_row k
  = ((Z.of_nat k / nr_per_row)%Z, (Z.of_nat k mod nr_per_row)%Z).
Proof.
  intros Hn. induction k as [|k IH]; [reflexivity|].
  cbn [subplot_of]. rewrite IH. unfold next_subplot.
  pose proof (Z.div_mod (Z.of_nat k) nr_per_row ltac:(lia)) as Hk.
  pose proof (Z.mod_pos_bound (Z.of_nat k) nr_per_row ltac:(lia)) as Hr.
  set (q := (Z.of_nat k / nr_per_row)%Z) in *.
  set (r := (Z.of_nat k mod nr_per_row)%Z) in *.
  replace (Z.of_nat (S k)) with (Z.of_nat k + 1)%Z by lia.
  destruct (r + 1 >? nr_per_row - 1)%Z eqn:G.
  - apply Z.gtb_lt in G.
    assert (E : (Z.of_nat k + 1 = nr_per_row * (q + 1) + 0)%Z) by lia.
    f_equal.
    + apply (Z.div_unique _ _ (q + 1) 0); lia.
    + apply (Z.mod_unique _ _ (q + 1) 0); lia.
  - assert (G' : (r + 1 <= nr_per_row - 1)%Z).
    { destruct (Z.gtb_spec (r + 1) (nr_per_row - 1)); [discriminate | lia]. }
    assert (E : (Z.of_nat k + 1 = nr_per_row * q + (r + 1))%Z) by lia.
    f_equal.
    + apply (Z.div_unique _ _ q (r + 1)); lia.
    + apply (Z.mod_unique _ _ q (r + 1)); lia.
Qed.

(** X14 (one subplot per measure).  With at least one subplot per row, the
    counters with which the measure number k is drawn are the row
    [k div nr_per_row] and the column [k mod nr_per_row]: the column stays
    below [nr_per_row], and two different measures never get the same
    counters. *)
Theorem X14_subplot_counters :
  forall (nr_per_row : Z) (k : nat),
    (1 <= nr_per_row)%Z ->
    subplot_of nr_per_row k
    = ((Z.of_nat k / nr_per_row)%Z, (Z.of_nat k mod nr_per_row)%Z)
    /\ (0 <= snd (subplot_of nr_per_row k) < nr_per_row)%Z
    /\ forall k', subplot_of nr_per_row k' = subplot_of nr_per_row k -> k' = k.
Proof.
  intros nr_per_row k Hn. split; [now apply subplot_of_div_mod|]. split.
  - rewrite subplot_of_div_mod by assumption. cbn [snd].
    apply Z.mod_pos_bound. lia.
  - intros k'. rewrite !subplot_of_div_mod by assumption.
    intros [= Hq Hr].
    pose proof (Z.div_mod (Z.of_nat k) nr_per_row ltac:(lia)).
    pose proof (Z.div_mod (Z.of_nat k') nr_per_row ltac:(lia)).
    apply Nat2Z.inj. congruence.
Qed.

(** Witness of X14: the default of two subplots per row. *)
Lemma X14_subplot_counters_witness :
  subplot_of 2 5 = ((Z.of_nat 5 / 2)%Z, (Z.of_nat 5 mod 2)%Z)
  /\ (0 <= snd (subplot_of 2 5) < 2)%Z
  /\ forall k', subplot_of 2 k' = subplot_of 2 5 -> k' = 5%nat.
Proof.
  apply (X14_subplot_counters 2 5). vm_compute. discriminate.
Defined.

(** ** How [visualize_scenario_at_time_steps] ends *)

(** The [alpha] of the shapes that [visualize_scenario_at_time_steps]
    fills and the opacity of a trajectory without a start time step are in
    range. *)
Lemma valid_alpha_half : valid_alpha 0.5 = true.
Proof. vm_compute. reflexivity. Qed.

Lemma valid_alpha_one : valid_alpha 1 = true.
Proof. vm_compute. reflexivity. Qed.

Lemma draw_state_list_without_start_returns (states : list State)
    (color : TUMcolor) (linewidth : float) (d : Drawing) :
  fst (draw_state_list states None color linewidth d) = Ret tt.
Proof.
  unfold draw_state_list. destruct states as [|s rest]; [reflexivity|].
  cbn [trajectory_opacity]. now rewrite valid_alpha_one.
Qed.

Lemma draw_shapes_in_window_outcome (obs : Obstacle) (time_steps : list Z)
    (b e : Z) :
  forall d : Drawing,
    fst (draw_shapes_in_window obs time_steps b e d)
    = if forallb
           (fun ts =>
              match occupancy_at_time obs ts with
              | Some _ => true
              | None => false
              end)
           (filter (fun ts => ((b - 1 <=? ts) && (ts <=? e))%Z) time_steps)
      then Ret tt else Raise AttributeError.
Proof.
  induction time_steps as [|ts rest IH]; intros d; [reflexivity|].
  cbn [draw_shapes_in_window filter].
  destruct ((b - 1 <=? ts) && (ts <=? e))%Z; [|apply IH].
  cbn [forallb]. unfold draw_dyn_vehicle_shape. rewrite valid_alpha_half.
  destruct (occupancy_at_time obs ts) as [[xy | [|xy shapes]]|]; cbn [andb];
    [apply IH | apply IH | apply IH | reflexivity].
Qed.

Lemma draw_obstacle_in_window_outcome (obs : Obstacle) (time_steps : list Z)
    (plot_begin plot_end : Z) (d : Drawing) :
  fst (draw_obstacle_in_window obs time_steps plot_begin plot_end d)
  = if can_draw time_steps plot_begin plot_end obs
    then Ret tt else Raise AttributeError.
Proof.
  unfold draw_obstacle_in_window, can_draw.
  destruct (prediction obs) as [p|]; [|reflexivity].
  pose proof (draw_state_list_without_start_returns
                (trajectory_in_window p plot_begin plot_end) TUMblue 5 d) as H.
  destruct (draw_state_list _ None TUMblue 5 d) as [[[]|x] d1];
    cbn [fst] in H; [|discriminate].
  apply draw_shapes_in_window_outcome.
Qed.

Lemma draw_obstacles_in_window_outcome (obstacles : list Obstacle)
    (time_steps : list Z) (plot_begin plot_end : Z) :
  forall d : Drawing,
    fst (draw_obstacles_in_window obstacles time_steps plot_begin plot_end d)
    = if forallb (can_draw time_steps plot_begin plot_end) obstacles
      then Ret tt else Raise AttributeError.
Proof.
  induction obstacles as [|obs rest IH]; intros d; [reflexivity|].
  cbn [draw_obstacles_in_window forallb].
  pose proof (draw_obstacle_in_window_outcome obs time_steps plot_begin
                plot_end d) as H.
  destruct (draw_obstacle_in_window obs time_steps plot_begin plot_end d)
    as [[[]|x] d1]; cbn [fst] in H;
    destruct (can_draw time_steps plot_begin plot_end obs);
    try discriminate; cbn [andb].
  - apply IH.
  - exact H.
Qed.

(** X15 (how the call ends).  [visualize_scenario_at_time_steps] raises
    [ValueError] for an empty list of time steps.  Otherwise it returns if
    every obstacle has a prediction and an occupancy at each of the given
    time steps from one before the begin of its drawn trajectory to its end,
    and raises [AttributeError] if some obstacle has not; it raises nothing
    else. *)
Theorem X15_outcome_of_visualize_scenario :
  forall (obstacles : list Obstacle) (time_steps : list Z) (d : Drawing),
    fst (visualize_scenario_at_time_steps obstacles time_steps d)
    = match list_min time_steps, list_max time_steps with
      | Ret plot_begin, Ret plot_end =>
          if forallb (can_draw time_steps plot_begin plot_end) obstacles
          then Ret tt else Raise AttributeError
      | _, _ => Raise ValueError
      end.
Proof.
  intros obstacles time_steps d. unfold visualize_scenario_at_time_steps.
  destruct time_steps as [|ts rest]; [reflexivity|].
  cbn [list_min list_max]. apply draw_obstacles_in_window_outcome.
Qed.

(** ** [draw_state_list] and the length of the list *)

Lemma int_true_divide_outcome (a b : Z) :
  b <> 0%Z ->
  (exists q, int_true_divide a b = Ret q)
  \/ int_true_divide a b = Raise OverflowError.
Proof.
  intros Hb. unfold int_true_divide. apply Z.eqb_neq in Hb. rewrite Hb.
  destruct (a =? 0)%Z; [left; eauto|].
  destruct (SFdiv prec emax (int_to_SF a) (int_to_SF b));
    first [left; eexists; reflexivity | right; reflexivity].
Qed.

(** X17 (no division by the length of an empty list).  [draw_state_list]
    returns at once for an empty list, before [start_time_step] is divided
    by the length of the list: the call never raises [ZeroDivisionError].
    It either returns, or raises [OverflowError] for a start time step
    whose quotient by the length is too large for a float, or raises
    [ValueError] for an opacity outside the range from 0 to 1, as for the
    start time step 5 and two states, whose opacity is 1.75; when it raises
    it has drawn nothing and has left the counter as it was. *)
Theorem X17_draw_state_list_never_divides_by_zero :
  forall (states : list State) (start_time_step : option Z)
         (color : TUMcolor) (linewidth : float) (d : Drawing),
    (fst (draw_state_list states start_time_step color linewidth d) = Ret tt
     \/ draw_state_list states start_time_step color linewidth d
        = (Raise OverflowError, d)
     \/ draw_state_list states start_time_step color linewidth d
        = (Raise ValueError, d))
    /\ draw_state_list [] start_time_step color linewidth d = (Ret tt, d)
    /\ forall s1 s2 : State,
         trajectory_opacity (Some 5%Z) 2 = Ret 1.75
         /\ draw_state_list [s1; s2] (Some 5%Z) color linewidth d
            = (Raise ValueError, d).
Proof.
  intros states start color linewidth d. split; [|split].
  - unfold draw_state_list.
    destruct states as [|s rest]; [now left|].
    destruct (trajectory_opacity start (Z.of_nat (length (s :: rest))))
      as [opacity|e] eqn:E.
    + destruct (valid_alpha opacity); [now left | now right; right].
    + right. left. revert E. unfold trajectory_opacity.
      destruct start as [z|]; [|discriminate].
      destruct (truthy_int (Some z)); [|discriminate].
      destruct (int_true_divide_outcome z (Z.of_nat (length (s :: rest))))
        as [[q ->] | ->]; cbn [obind length]; [lia | discriminate |].
      now intros [= <-].
  - reflexivity.
  - intros s1 s2.
    assert (E : trajectory_opacity (Some 5%Z) 2 = Ret 1.75)
      by (vm_compute; reflexivity).
    split; [exact E|]. unfold draw_state_list. cbn [length Z.of_nat Pos.of_succ_nat Pos.succ].
    rewrite E.
    replace (valid_alpha 1.75) with false by (vm_compute; reflexivity).
    reflexivity.
Qed.
